(** * Try-outfits: the Gemini image-editing service

    A shallow embedding of [editImageWithGemini], the request/response
    orchestration between the UI and the remote image model.  The repository
    holds two variants of the function:

    - [src/services/geminiService.ts], the one [App.tsx] imports;
    - [src/unnamed/part_000], which adds quota classification and a
      retry-delay message to the [catch] block.

    Both are embedded, each in its own module, from its own file.  The
    caller of the service, [handleGenerate] of [src/App.tsx], and the file
    check of [src/components/ImageUploader.tsx] are embedded after them.

    Conventions of the embedding.
    - A JavaScript string is a [string]: each character stands for one
      UTF-16 code unit below 256, so the characters below 128 are ASCII and
      the character 160 is the no-break space.  Strings that need a code
      unit from 256 on are outside the embedding.
    - An object field that may be missing is an [option]; [None] is
      [undefined].  A parameter typed [string | null] is a [Nullable].
    - A [try] block evaluates to a [Completion]: [Return v] or [Throw e].
      The promise of the [async] function is its completion: resolved with
      [v] for [Return v], rejected with [e] for [Throw e].
    - The remote call [ai.models.generateContent] is a parameter of the
      function: an arbitrary map from the request to a completion.
    - JavaScript numbers met by the retry-delay arithmetic are exact
      rationals, with [NaN] and the two infinities; the rounding of IEEE
      doubles is not modelled, and integers are printed in plain decimal.
      The two agree where no rounding is visible: a decimal numeral of a
      whole number below [2^53] is read exactly; for a double [x] with
      [0 <= x < 2^53] the quotient [x / 60] is rounded by less than its
      distance to the next whole number, so [Math.floor (x / 60)] is the
      floor of the exact quotient, and [x % 60] is exact; a whole number
      below [10^21] is printed in plain decimal.  The properties that depend
      on this arithmetic are stated within these bounds.
    - The message of the [TypeError] that the engine raises at line 64 is
      not fixed by the language: it is a parameter too. *)

From Stdlib Require Import String Ascii List Bool ZArith QArith Qround Lia.
From Stdlib Require Import DecimalString DecimalZ Lqa.
Import ListNotations.

Local Open Scope string_scope.
Local Open Scope list_scope.

(** ** A small JavaScript runtime *)

Module Js.

(** A value of type [A | null | undefined]. *)
Inductive Nullable (A : Type) : Type :=
| Undefined
| Null
| Value (a : A).
Arguments Undefined {A}.
Arguments Null {A}.
Arguments Value {A} a.

(** [ToBoolean]: the truthiness test behind [if], [&&], [||] and [?:]. *)
Class ToBoolean (A : Type) : Type := toBoolean : A -> bool.

#[export] Instance ToBoolean_bool : ToBoolean bool := fun b => b.

(** The empty string is the only falsy string. *)
#[export] Instance ToBoolean_string : ToBoolean string :=
  fun s => match s with EmptyString => false | String _ _ => true end.

(** Zero is the only falsy integer. *)
#[export] Instance ToBoolean_Z : ToBoolean Z :=
  fun z => negb (Z.eqb z 0).

(** Arrays are objects: every array is truthy, the empty one too. *)
#[export] Instance ToBoolean_list {A : Type} : ToBoolean (list A) :=
  fun _ => true.

(** A missing field reads as [undefined], which is falsy. *)
#[export] Instance ToBoolean_option {A : Type} `{ToBoolean A} : ToBoolean (option A) :=
  fun o => match o with Some a => toBoolean a | None => false end.

#[export] Instance ToBoolean_Nullable {A : Type} `{ToBoolean A} : ToBoolean (Nullable A) :=
  fun o => match o with Value a => toBoolean a | _ => false end.

(** [a || b] on two operands of one type. *)
Definition or {A : Type} `{ToBoolean A} (a b : A) : A :=
  if toBoolean a then a else b.

(** [a || d] where [a] may be [undefined] and [d] is a literal. *)
Definition orElse {A : Type} `{ToBoolean A} (a : option A) (d : A) : A :=
  match a with
  | Some x => if toBoolean x then x else d
  | None => d
  end.

(** [a && b] used as a condition. *)
Definition and {A B : Type} `{ToBoolean A} `{ToBoolean B} (a : A) (b : B) : bool :=
  if toBoolean a then toBoolean b else false.

(** [s.startsWith(pre)]. *)
Fixpoint startsWith (s pre : string) {struct pre} : bool :=
  match pre with
  | EmptyString => true
  | String p pre' =>
      match s with
      | String c s' => Ascii.eqb c p && startsWith s' pre'
      | EmptyString => false
      end
  end.

(** [s.includes(sub)] on strings: [sub] starts at some position of [s]. *)
Fixpoint includes (s sub : string) : bool :=
  if startsWith s sub then true
  else match s with
       | EmptyString => false
       | String _ rest => includes rest sub
       end.

(** [s.replace(c, '')] for a one-character pattern [c]: the first
    occurrence is removed, later ones stay. *)
Fixpoint removeFirst (c : ascii) (s : string) : string :=
  match s with
  | EmptyString => EmptyString
  | String a rest => if Ascii.eqb a c then rest else String a (removeFirst c rest)
  end.

(** [arr.find(p)]. *)
Definition find {A : Type} (p : A -> bool) (l : list A) : option A :=
  List.find p l.

(** *** Completions *)

Inductive Completion (E A : Type) : Type :=
| Return (a : A)
| Throw (e : E).
Arguments Return {E A} a.
Arguments Throw {E A} e.

(** [try { body } catch (e) { handler }]. *)
Definition tryCatch {E A : Type} (body : Completion E A)
           (handler : E -> Completion E A) : Completion E A :=
  match body with
  | Return a => Return a
  | Throw e => handler e
  end.

Definition bind {E A B : Type} (c : Completion E A)
           (k : A -> Completion E B) : Completion E B :=
  match c with
  | Return a => k a
  | Throw e => Throw e
  end.

(** *** Numbers

    Exact rationals stand for the finite doubles.  A double is a rational,
    and on the doubles [x] with [0 <= x < 2^53] the operations below give
    what the language gives; on larger values, and on numerals too long to
    be read exactly, the language rounds where the operations below do
    not. *)

Inductive number : Type :=
| NaN
| Infinity (negative : bool)
| Finite (q : Q).

(** The values [Math.floor] and [Math.ceil] return. *)
Inductive integral : Type :=
| INaN
| IInfinity (negative : bool)
| IInt (z : Z).

Definition isDigit (c : ascii) : bool :=
  let n := nat_of_ascii c in (48 <=? n)%nat && (n <=? 57)%nat.

Definition digitValue (c : ascii) : Z := Z.of_nat (nat_of_ascii c) - 48.

(** The white space and line terminators that [parseFloat] skips and
    [trim] removes, among the code units below 256: tab, line feed,
    vertical tab, form feed, carriage return, space and no-break space.
    (The others, from U+1680 on, are not characters of a [string].) *)
Definition isWhiteSpace (c : ascii) : bool :=
  let n := nat_of_ascii c in
  (n =? 9)%nat || (n =? 10)%nat || (n =? 11)%nat || (n =? 12)%nat
  || (n =? 13)%nat || (n =? 32)%nat || (n =? 160)%nat.

Fixpoint trimStart (s : string) : string :=
  match s with
  | String c rest => if isWhiteSpace c then trimStart rest else s
  | EmptyString => EmptyString
  end.

(** The longest run of decimal digits at the head of [s], read with
    accumulator [acc]: its value, its length and the rest of [s]. *)
Fixpoint takeDigits (acc : Z) (s : string) : Z * nat * string :=
  match s with
  | String c rest =>
      if isDigit c then
        let '(v, n, r) := takeDigits (10 * acc + digitValue c) rest in
        (v, S n, r)
      else (acc, O, s)
  | EmptyString => (acc, O, EmptyString)
  end.

(** An optional sign: [true] for [-]. *)
Definition takeSign (s : string) : bool * string :=
  match s with
  | String "-" rest => (true, rest)
  | String "+" rest => (false, rest)
  | _ => (false, s)
  end.

(** [ExponentPart]: [e] or [E], an optional sign and at least one digit;
    anything else is not part of the literal. *)
Definition takeExponent (s : string) : Z :=
  match s with
  | String c rest =>
      if Ascii.eqb c "e" || Ascii.eqb c "E" then
        let '(neg, r) := takeSign rest in
        let '(v, n, _) := takeDigits 0 r in
        match n with
        | O => 0
        | S _ => if neg then - v else v
        end
      else 0
  | EmptyString => 0
  end%Z.

(** [parseFloat(s)]: the longest prefix of the trimmed string that is a
    [StrDecimalLiteral], or [NaN] when there is none.  The value is the
    exact one of the literal: it is the double the language returns when the
    literal is a whole number below [2^53]; a literal that no double equals
    is rounded by the language and not here. *)
Definition parseFloat (s : string) : number :=
  let '(neg, s1) := takeSign (trimStart s) in
  if startsWith s1 "Infinity" then Infinity neg
  else
    let '(ip, ni, s2) := takeDigits 0 s1 in
    let '(m, nf, s3) :=
      match s2 with
      | String "." rest => takeDigits ip rest
      | _ => (ip, O, s2)
      end in
    match (ni + nf)%nat with
    | O => NaN
    | S _ =>
        let q := (inject_Z m * Qpower 10 (takeExponent s3 - Z.of_nat nf))%Q in
        Finite (if neg then - q else q)%Q
    end.

(** [x / d] for a positive constant [d]. *)
Definition divide (x : number) (d : positive) : number :=
  match x with
  | NaN => NaN
  | Infinity neg => Infinity neg
  | Finite q => Finite (q / inject_Z (Z.pos d))
  end.

(** Rounding towards zero. *)
Definition truncate (q : Q) : Z :=
  if Qle_bool 0 q then Qfloor q else Qceiling q.

(** [x % d] for a positive constant [d]: the result has the sign of [x]. *)
Definition remainder (x : number) (d : positive) : number :=
  match x with
  | NaN => NaN
  | Infinity _ => NaN
  | Finite q =>
      Finite (q - inject_Z (Z.pos d) * inject_Z (truncate (q / inject_Z (Z.pos d))))
  end.

Module Math.
Definition floor (x : number) : integral :=
  match x with
  | NaN => INaN
  | Infinity neg => IInfinity neg
  | Finite q => IInt (Qfloor q)
  end.

Definition ceil (x : number) : integral :=
  match x with
  | NaN => INaN
  | Infinity neg => IInfinity neg
  | Finite q => IInt (Qceiling q)
  end.
End Math.

(** [x > k] for an integer constant [k]; every comparison with [NaN]
    is false. *)
Definition gt (x : integral) (k : Z) : bool :=
  match x with
  | INaN => false
  | IInfinity neg => negb neg
  | IInt z => (k <? z)%Z
  end.

(** The text a template literal gives for [x]: plain decimal, as the
    language prints a whole number below [10^21] (it prints the larger ones
    with an exponent). *)
Definition toString (x : integral) : string :=
  match x with
  | INaN => "NaN"
  | IInfinity neg => if neg then "-Infinity" else "Infinity"
  | IInt z => NilZero.string_of_int (Z.to_int z)
  end.

End Js.

Import Js.

Notation "x <- c ;; k" := (Js.bind c (fun x => k))
  (at level 61, c at next level, right associativity).

(** ** The data exchanged with the remote service

    The shapes the two files read and write: the parts of a request and of a
    response, and the error object a failed call throws. *)

(** [inlineData]: the bytes of an image, base64-encoded, and their type. *)
Record Blob : Type := mkBlob {
  data : string;
  mimeType : string
}.

(** One part of a request or of a response.  The request builder sets one
    field of the two; a response part is read through both. *)
Record Part : Type := mkPart {
  inlineData : option Blob;
  text : option string
}.

Record Content : Type := mkContent {
  parts : option (list Part)
}.

Record Candidate : Type := mkCandidate {
  content : option Content
}.

Record GenerateContentResponse : Type := mkResponse {
  candidates : option (list Candidate)
}.

(** The argument of [ai.models.generateContent]; [config] is empty. *)
Record GenerateContentParameters : Type := mkParameters {
  model : string;
  contents : Content
}.

(** An entry of an error's [details]: ['@type'] and [retryDelay]. *)
Record ErrorDetail : Type := mkDetail {
  atType : option string;
  retryDelay : option string
}.

(** The fields the [catch] block reads from an error payload. *)
Record ErrorFields : Type := mkFields {
  code : option Z;
  status : option string;
  message : option string;
  details : option (list ErrorDetail)
}.

(** A caught value: its own fields, and the payload nested under [error]
    when there is one. *)
Record CaughtError : Type := mkCaught {
  error : option ErrorFields;
  own : ErrorFields
}.

(** [new Error(msg)]: only [message] is set. *)
Definition newError (msg : string) : CaughtError :=
  {| error := None;
     own := {| code := None; status := None; message := Some msg; details := None |} |}.

Definition Outcome (A : Type) : Type := Completion CaughtError A.

(** The image part [{ inlineData: { data, mimeType } }]. *)
Definition imagePart (d m : string) : Part :=
  {| inlineData := Some {| data := d; mimeType := m |}; text := None |}.

(** The text part [{ text }]. *)
Definition textPart (t : string) : Part :=
  {| inlineData := None; text := Some t |}.

(** ** [src/services/geminiService.ts] *)

Module GeminiService.

Definition MODEL_NAME : string := "gemini-2.5-flash-image".

Section EditImage.

(** The remote call [ai.models.generateContent]. *)
Variable generateContent : GenerateContentParameters -> Outcome GenerateContentResponse.

(** The message of the [TypeError] the engine raises when line 64 reads
    [content] of [undefined]. *)
Variable typeErrorMessage : string.

Variable base64Image : string.
Variable mimeType : string.
Variable prompt : string.
Variable referenceImageBase64 : Nullable string.
Variable referenceMimeType : Nullable string.

(** Lines 27-51: the parts of the request. *)
Definition buildParts : list Part :=
  let parts := [] in
  let parts := parts ++ [imagePart base64Image mimeType] in
  let parts :=
    match referenceImageBase64, referenceMimeType with
    | Value ref, Value refMime =>
        if Js.and ref refMime
        then parts ++ [imagePart ref refMime]
        else parts
    | _, _ => parts
    end in
  parts ++ [textPart prompt].

(** Lines 53-61. *)
Definition request : GenerateContentParameters :=
  {| model := MODEL_NAME; contents := {| parts := Some buildParts |} |}.

(** Lines 65-70: the loop over the parts returns at the first one that
    has [inlineData] (an object, hence truthy). *)
Fixpoint firstInlineData (ps : list Part) : option Blob :=
  match ps with
  | [] => None
  | part :: rest =>
      match inlineData part with
      | Some blob => Some blob
      | None => firstInlineData rest
      end
  end.

(** Lines 64-71.  The condition reads [candidates[0].content]
    unguarded: on an empty [candidates] the element is [undefined] and
    the read raises a [TypeError]. *)
Definition findImage (response : GenerateContentResponse) : Outcome (option Blob) :=
  match candidates response with
  | None => Return None
  | Some [] => Throw (newError typeErrorMessage)
  | Some (first :: _) =>
      match content first with
      | None => Return None
      | Some c =>
          match parts c with
          | None => Return None
          | Some ps => Return (firstInlineData ps)
          end
      end
  end.

(** Line 74: [response.candidates?.[0]?.content?.parts?.find(p => p.text)]. *)
Definition findTextPart (response : GenerateContentResponse) : option Part :=
  match candidates response with
  | Some (first :: _) =>
      match content first with
      | Some c =>
          match parts c with
          | Some ps => Js.find (fun p => toBoolean (text p)) ps
          | None => None
          end
      | None => None
      end
  | _ => None
  end.

(** Lines 27-79: the body of [try]. *)
Definition tryBlock : Outcome string :=
  response <- generateContent request ;;
  image <- findImage response ;;
  match image with
  | Some blob => Return ("data:image/png;base64," ++ data blob)%string
  | None =>
      match findTextPart response with
      | Some {| text := Some t |} =>
          if toBoolean t
          then Throw (newError ("Gemini refused to generate an image. Reason: " ++ t)%string)
          else Throw (newError "No image data received from Gemini.")
      | _ => Throw (newError "No image data received from Gemini.")
      end
  end.

(** Lines 81-84: the [catch] block.  Line 82 logs the error to the
    console, which leaves the error and the result as they are. *)
Definition catchBlock (e : CaughtError) : Outcome string :=
  Throw (newError (orElse (message (own e)) "Failed to edit image using Gemini.")).

Definition editImageWithGemini : Outcome string :=
  tryCatch tryBlock catchBlock.

End EditImage.

End GeminiService.

(** ** [src/unnamed/part_000] *)

Module Part000.

Definition MODEL_NAME : string := "gemini-2.5-flash-image".

Section EditImage.

(** The remote call [ai.models.generateContent]. *)
Variable generateContent : GenerateContentParameters -> Outcome GenerateContentResponse.

(** The message of the [TypeError] the engine raises when line 64 reads
    [content] of [undefined]. *)
Variable typeErrorMessage : string.

Variable base64Image : string.
Variable mimeType : string.
Variable prompt : string.
Variable referenceImageBase64 : Nullable string.
Variable referenceMimeType : Nullable string.

(** Lines 27-51: the parts of the request. *)
Definition buildParts : list Part :=
  let parts := [] in
  let parts := parts ++ [imagePart base64Image mimeType] in
  let parts :=
    match referenceImageBase64, referenceMimeType with
    | Value ref, Value refMime =>
        if Js.and ref refMime
        then parts ++ [imagePart ref refMime]
        else parts
    | _, _ => parts
    end in
  parts ++ [textPart prompt].

(** Lines 53-61. *)
Definition request : GenerateContentParameters :=
  {| model := MODEL_NAME; contents := {| parts := Some buildParts |} |}.

(** Lines 65-70: the loop over the parts returns at the first one that
    has [inlineData] (an object, hence truthy). *)
Fixpoint firstInlineData (ps : list Part) : option Blob :=
  match ps with
  | [] => None
  | part :: rest =>
      match inlineData part with
      | Some blob => Some blob
      | None => firstInlineData rest
      end
  end.

(** Lines 64-71.  The condition reads [candidates[0].content]
    unguarded: on an empty [candidates] the element is [undefined] and
    the read raises a [TypeError]. *)
Definition findImage (response : GenerateContentResponse) : Outcome (option Blob) :=
  match candidates response with
  | None => Return None
  | Some [] => Throw (newError typeErrorMessage)
  | Some (first :: _) =>
      match content first with
      | None => Return None
      | Some c =>
          match parts c with
          | None => Return None
          | Some ps => Return (firstInlineData ps)
          end
      end
  end.

(** Line 74: [response.candidates?.[0]?.content?.parts?.find(p => p.text)]. *)
Definition findTextPart (response : GenerateContentResponse) : option Part :=
  match candidates response with
  | Some (first :: _) =>
      match content first with
      | Some c =>
          match parts c with
          | Some ps => Js.find (fun p => toBoolean (text p)) ps
          | None => None
          end
      | None => None
      end
  | _ => None
  end.

(** Lines 27-79: the body of [try]. *)
Definition tryBlock : Outcome string :=
  response <- generateContent request ;;
  image <- findImage response ;;
  match image with
  | Some blob => Return ("data:image/png;base64," ++ data blob)%string
  | None =>
      match findTextPart response with
      | Some {| text := Some t |} =>
          if toBoolean t
          then Throw (newError ("Gemini refused to generate an image. Reason: " ++ t)%string)
          else Throw (newError "No image data received from Gemini.")
      | _ => Throw (newError "No image data received from Gemini.")
      end
  end.

(** Line 85: [error.error || error]. *)
Definition errorObj (e : CaughtError) : ErrorFields :=
  match error e with
  | Some nested => nested
  | None => own e
  end.

(** Line 86. *)
Definition errorCode (e : CaughtError) : option Z :=
  Js.or (code (errorObj e)) (code (own e)).

(** Line 87. *)
Definition errorStatus (e : CaughtError) : option string :=
  Js.or (status (errorObj e)) (status (own e)).

(** Line 88. *)
Definition errorMessage (e : CaughtError) : string :=
  orElse (Js.or (message (errorObj e)) (message (own e))) "".

(** Line 89. *)
Definition errorDetails (e : CaughtError) : list ErrorDetail :=
  orElse (Js.or (details (errorObj e)) (details (own e))) [].

(** [x === 429] and [x === 'RESOURCE_EXHAUSTED'] on a field that may be
    [undefined]. *)
Definition isNumber (x : option Z) (k : Z) : bool :=
  match x with Some z => Z.eqb z k | None => false end.

Definition isString (x : option string) (k : string) : bool :=
  match x with Some s => String.eqb s k | None => false end.

(** Line 92: the condition of the quota branch. *)
Definition isQuotaError (e : CaughtError) : bool :=
  isNumber (errorCode e) 429
  || isString (errorStatus e) "RESOURCE_EXHAUSTED"
  || includes (errorMessage e) "quota"
  || includes (errorMessage e) "Quota exceeded".

(** Lines 98-103: the delay of the first detail that is a [RetryInfo]
    with a truthy [retryDelay]. *)
Fixpoint firstRetryDelay (ds : list ErrorDetail) : option string :=
  match ds with
  | [] => None
  | detail :: rest =>
      if isString (atType detail) "type.googleapis.com/google.rpc.RetryInfo"
         && toBoolean (retryDelay detail)
      then retryDelay detail
      else firstRetryDelay rest
  end.

(** Lines 94-104: [retryAfter], [None] for [null]. *)
Definition retryAfter (e : CaughtError) : option string :=
  if toBoolean (errorDetails e) && (0 <? List.length (errorDetails e))%nat
  then firstRetryDelay (errorDetails e)
  else None.

Definition pricing : string :=
  " before trying again, or upgrade your plan at https://ai.google.dev/pricing".

(** Lines 108-120: the message for a delay [retryAfter].  With the exact
    arithmetic above, this is the message of the source for the delays that
    are read exactly and lie below [2^53]. *)
Definition retryMessage (retryAfter : string) : string :=
  let seconds := parseFloat (removeFirst "s" retryAfter) in
  let minutes := Math.floor (divide seconds 60) in
  let remainingSeconds := Math.ceil (remainder seconds 60) in
  (if gt minutes 0 then
     "API quota exceeded. You've reached the free tier limit. Please wait "
     ++ toString minutes ++ " minute" ++ (if gt minutes 1 then "s" else "")
     ++ " "
     ++ (if gt remainingSeconds 0
         then "and " ++ toString remainingSeconds ++ " second"
              ++ (if gt remainingSeconds 1 then "s" else "")
         else "")
     ++ pricing
   else
     "API quota exceeded. Please wait "
     ++ toString (Math.ceil seconds) ++ " second"
     ++ (if gt (Math.ceil seconds) 1 then "s" else "")
     ++ pricing)%string.

(** Lines 124 and 131. *)
Definition quotaMessage : string :=
  ("API quota exceeded. You've reached the free tier limit. Please wait a few minutes"
   ++ pricing)%string.

(** Lines 81-136: the [catch] block.  Line 82 logs the error to the
    console, which leaves the error and the result as they are; the
    [errorMessage] that line 93 declares inside the branch is never read. *)
Definition catchBlock (e : CaughtError) : Outcome string :=
  if isQuotaError e then
    match retryAfter e with
    | Some delay =>
        if toBoolean delay
        then Throw (newError (retryMessage delay))
        else Throw (newError quotaMessage)
    | None => Throw (newError quotaMessage)
    end
  else if Js.and (errorMessage e) (includes (errorMessage e) "quota")
  then Throw (newError quotaMessage)
  else Throw (newError (Js.or (errorMessage e) "Failed to edit image using Gemini.")).

Definition editImageWithGemini : Outcome string :=
  tryCatch tryBlock catchBlock.

End EditImage.

End Part000.

(** ** The callers of the service

    [src/App.tsx] calls the service from [handleGenerate], with files that
    [src/components/ImageUploader.tsx] has let through. *)

(** String and array operations these two files use. *)
Module JsText.

(** [s.split(sep)] for a one-character separator. *)
Fixpoint split (sep : ascii) (s : string) : list string :=
  match s with
  | EmptyString => [EmptyString]
  | String c rest =>
      if Ascii.eqb c sep then EmptyString :: split sep rest
      else match split sep rest with
           | field :: fields => String c field :: fields
           | [] => [String c EmptyString]
           end
  end.

(** [arr[i]]: [undefined] past the end. *)
Definition item {A : Type} (arr : list A) (i : nat) : Nullable A :=
  match nth_error arr i with
  | Some a => Value a
  | None => Undefined
  end.

(** [s.trimEnd()]. *)
Fixpoint trimEnd (s : string) : string :=
  match s with
  | EmptyString => EmptyString
  | String c rest =>
      match trimEnd rest with
      | EmptyString => if isWhiteSpace c then EmptyString else String c EmptyString
      | kept => String c kept
      end
  end.

(** [s.trim()], with the white space of [isWhiteSpace]. *)
Definition trim (s : string) : string := trimEnd (trimStart s).

End JsText.

(** A [File] of the browser: the fields the two files read. *)
Module Browser.

Record File : Type := mkFile {
  type : string;
  size : Z
}.

(** A [File] is an object: truthy. *)
#[export] Instance ToBoolean_File : ToBoolean File := fun _ => true.

End Browser.

Import Browser.

(** *** [src/components/ImageUploader.tsx] *)

Module ImageUploader.

(** What a handler does with a file: it alerts, or it calls
    [onImageSelect]. *)
Inductive Effect : Type :=
| alert (msg : string)
| onImageSelect (file : File).

(** Lines 51-62. *)
Definition processFile (file : File) : Effect :=
  if negb (startsWith (type file) "image/") then
    alert "Please upload an image file"
  else if (10 * 1024 * 1024 <? size file)%Z then
    alert "File size too large. Please upload an image smaller than 10MB."
  else onImageSelect file.

(** Lines 35-42 and 44-49: [handleDrop] and [handleChange] pass the first
    file of the list, when there is a list and it has one; [None] when
    nothing is done with a file.  ([handleDrop] also ends the drag
    highlight, which no file depends on.) *)
Definition handleFiles (files : option (list File)) : option Effect :=
  match files with
  | Some (first :: _) => Some (processFile first)
  | Some [] | None => None
  end.

End ImageUploader.

(** *** [src/types.ts] *)

Module Types.

Record ProcessingState : Type := mkProcessingState {
  isLoading : bool;
  error : option string;
  statusMessage : string
}.

End Types.

(** *** [src/App.tsx] *)

Module App.

(** The state of the component: lines 10-25. *)
Record State : Type := mkState {
  selectedFile : option File;
  previewUrl : option string;
  referenceFile : option File;
  referenceUrl : option string;
  generatedImage : option string;
  prompt : string;
  processingState : Types.ProcessingState
}.

Definition setGeneratedImage (v : option string) (s : State) : State :=
  {| selectedFile := selectedFile s; previewUrl := previewUrl s;
     referenceFile := referenceFile s; referenceUrl := referenceUrl s;
     generatedImage := v; prompt := prompt s;
     processingState := processingState s |}.

Definition setProcessingState (v : Types.ProcessingState) (s : State) : State :=
  {| selectedFile := selectedFile s; previewUrl := previewUrl s;
     referenceFile := referenceFile s; referenceUrl := referenceUrl s;
     generatedImage := generatedImage s; prompt := prompt s;
     processingState := v |}.

Section Handlers.

(** [FileReader.readAsDataURL]: the [result] when the read ends, or the
    event that [onerror] passes to [reject]. *)
Variable readAsDataURL : File -> Outcome string.

(** The imported [editImageWithGemini], as it is called at run time: its
    first argument is what [fileToBase64] resolved with, [undefined]
    included. *)
Variable editImageWithGemini :
  Nullable string -> string -> string -> Nullable string -> Nullable string ->
  Outcome string.

(** Lines 63-75. *)
Definition fileToBase64 (file : File) : Outcome (Nullable string) :=
  result <- readAsDataURL file ;;
  Return (JsText.item (JsText.split "," result) 1).

(** Lines 86-103: the calls of the [try] block. *)
Definition generate (file : File) (s : State) : Outcome string :=
  mainBase64 <- fileToBase64 file ;;
  refBase64 <- match referenceFile s with
               | Some ref => fileToBase64 ref
               | None => Return Null
               end ;;
  editImageWithGemini mainBase64 (type file) (prompt s) refBase64
    (match referenceFile s with
     | Some ref => Value (type ref)
     | None => Undefined
     end).

(** Lines 77-115.  The processing state set at line 80 while the request
    is under way is replaced as a whole at line 106 or at line 109. *)
Definition handleGenerate (s : State) : State :=
  match selectedFile s with
  | None => s
  | Some file =>
      if negb (toBoolean (JsText.trim (prompt s))) then s
      else
        let loading :=
          setProcessingState
            {| Types.isLoading := true; Types.error := None;
               Types.statusMessage := "Processing your request..." |} s in
        match generate file s with
        | Return generatedImageUrl =>
            setProcessingState
              {| Types.isLoading := false; Types.error := None;
                 Types.statusMessage := "" |}
              (setGeneratedImage (Some generatedImageUrl) loading)
        | Throw err =>
            setProcessingState
              {| Types.isLoading := false;
                 Types.error :=
                   Some (orElse (message (own err))
                           "Something went wrong. Please try a different prompt or image.");
                 Types.statusMessage := "" |} loading
        end
  end.

End Handlers.

End App.

(** * Properties *)

(** ** Strings *)

Section StringFacts.

Local Open Scope string_scope.

(** [sub] occurs in [s]. *)
Definition Substring (sub s : string) : Prop :=
  exists before after, s = before ++ sub ++ after.

Lemma startsWith_spec (s pre : string) :
  startsWith s pre = true <-> exists rest, s = pre ++ rest.
Proof.
  revert s. induction pre as [|p pre IH]; intros s; simpl.
  - split; [intros _; exists s; reflexivity | reflexivity].
  - destruct s as [|c s]; simpl.
    + split; [discriminate | intros [rest H]; discriminate].
    + rewrite andb_true_iff, Ascii.eqb_eq, IH. split.
      * intros [-> [rest ->]]. exists rest. reflexivity.
      * intros [rest H]. injection H as -> ->. split; [reflexivity | exists rest; reflexivity].
Qed.

Lemma includes_here (s sub : string) :
  startsWith s sub = true -> includes s sub = true.
Proof. intros H. destruct s; simpl in *; rewrite H; reflexivity. Qed.

Lemma includes_cons (c : ascii) (s sub : string) :
  includes s sub = true -> includes (String c s) sub = true.
Proof. intros H. simpl. rewrite H. destruct (startsWith (String c s) sub); reflexivity. Qed.

Lemma includes_spec (s sub : string) :
  includes s sub = true <-> Substring sub s.
Proof.
  split.
  - induction s as [|c s IH].
    + simpl. destruct (startsWith "" sub) eqn:E; [|discriminate].
      intros _. apply startsWith_spec in E as [rest E].
      exists "", rest. exact E.
    + simpl. destruct (startsWith (String c s) sub) eqn:E.
      * intros _. apply startsWith_spec in E as [rest E].
        exists "", rest. exact E.
      * intros H. destruct (IH H) as (before & after & ->).
        exists (String c before), after. reflexivity.
  - intros (before & after & ->).
    induction before as [|c before IH].
    + apply includes_here, startsWith_spec. exists after. reflexivity.
    + apply includes_cons, IH.
Qed.

Lemma includes_false (s sub : string) :
  includes s sub = false <-> ~ Substring sub s.
Proof.
  rewrite <- includes_spec. destruct (includes s sub); split; congruence.
Qed.

End StringFacts.

(** ** The request builder *)

Module Builder.

(** A reference field is set: neither [null] nor [undefined]. *)
Definition isSet (x : Nullable string) : bool :=
  match x with
  | Value _ => true
  | Undefined | Null => false
  end.

(** A reference field is set to a string that is not empty. *)
Definition isProvided (x : Nullable string) : bool :=
  match x with
  | Value (String _ _) => true
  | _ => false
  end.

(** The contents of a reference field, [""] when it has none. *)
Definition valueOf (x : Nullable string) : string :=
  match x with
  | Value s => s
  | Undefined | Null => ""
  end.

End Builder.

(** C3, counterexample.  A reference image of zero bytes with its MIME type:
    both fields are set, and the request has two parts, not three. *)
Lemma buildParts_empty_reference_dropped :
  Builder.isSet (Value "") = true /\
  Builder.isSet (Value "image/png") = true /\
  List.length (GeminiService.buildParts "aGVsbG8=" "image/png" "make it red"
                 (Value "") (Value "image/png")) <> 3%nat /\
  GeminiService.buildParts "aGVsbG8=" "image/png" "make it red"
    (Value "") (Value "image/png")
  = [imagePart "aGVsbG8=" "image/png"; textPart "make it red"].
Proof.
  repeat split; try reflexivity. simpl. discriminate.
Qed.

(** C3, amended.  The request has three parts, [primary image; reference
    image; instruction], when both reference fields are set to non-empty
    strings, and the two parts [primary image; instruction] otherwise: when
    a field is [null], [undefined] or the empty string. *)
Theorem buildParts_parts
        (base64Image mimeType prompt : string)
        (referenceImageBase64 referenceMimeType : Nullable string) :
  (Builder.isProvided referenceImageBase64 = true ->
   Builder.isProvided referenceMimeType = true ->
   GeminiService.buildParts base64Image mimeType prompt
     referenceImageBase64 referenceMimeType
   = [imagePart base64Image mimeType;
      imagePart (Builder.valueOf referenceImageBase64)
                (Builder.valueOf referenceMimeType);
      textPart prompt]) /\
  (Builder.isProvided referenceImageBase64 = false \/
   Builder.isProvided referenceMimeType = false ->
   GeminiService.buildParts base64Image mimeType prompt
     referenceImageBase64 referenceMimeType
   = [imagePart base64Image mimeType; textPart prompt]).
Proof.
  unfold GeminiService.buildParts. split.
  - intros Hi Hm.
    destruct referenceImageBase64 as [| |[|c r]]; try discriminate Hi.
    destruct referenceMimeType as [| |[|d m]]; try discriminate Hm.
    reflexivity.
  - intros [H|H].
    + destruct referenceImageBase64 as [| |[|c r]]; try discriminate H;
        destruct referenceMimeType as [| |[|d m]]; reflexivity.
    + destruct referenceMimeType as [| |[|d m]]; try discriminate H;
        destruct referenceImageBase64 as [| |[|c r]]; reflexivity.
Qed.

Lemma buildParts_parts_witness :
  GeminiService.buildParts "aGVsbG8=" "image/png" "make it red"
    (Value "d29ybGQ=") (Value "image/jpeg")
  = [imagePart "aGVsbG8=" "image/png";
     imagePart "d29ybGQ=" "image/jpeg";
     textPart "make it red"]
  /\
  GeminiService.buildParts "aGVsbG8=" "image/png" "make it red"
    (Value "d29ybGQ=") Undefined
  = [imagePart "aGVsbG8=" "image/png"; textPart "make it red"].
Proof.
  split.
  - apply (proj1 (buildParts_parts "aGVsbG8=" "image/png" "make it red"
                    (Value "d29ybGQ=") (Value "image/jpeg"))); reflexivity.
  - apply (proj2 (buildParts_parts "aGVsbG8=" "image/png" "make it red"
                    (Value "d29ybGQ=") Undefined)). right. reflexivity.
Defined.

(** C10.  The primary image is the [data] of the first part and the
    instruction is the [text] of the last part, both unchanged, in the two
    variants and whatever the other arguments are. *)
Theorem buildParts_verbatim
        (X mimeType prompt : string)
        (referenceImageBase64 referenceMimeType : Nullable string) :
  let built := GeminiService.buildParts X mimeType prompt
                 referenceImageBase64 referenceMimeType in
  let built' := Part000.buildParts X mimeType prompt
                  referenceImageBase64 referenceMimeType in
  option_map data (inlineData (List.hd (textPart "") built)) = Some X /\
  text (List.last built (imagePart "" "")) = Some prompt /\
  option_map data (inlineData (List.hd (textPart "") built')) = Some X /\
  text (List.last built' (imagePart "" "")) = Some prompt.
Proof.
  unfold GeminiService.buildParts, Part000.buildParts.
  destruct referenceImageBase64 as [| |[|c r]];
    destruct referenceMimeType as [| |[|d m]];
    repeat split; reflexivity.
Qed.

(** ** The interpreter of responses *)

Module Interpreter.

(** [ps] are the content parts of the first candidate of [r]. *)
Definition firstCandidateParts (r : GenerateContentResponse) (ps : list Part) : Prop :=
  exists first rest c,
    candidates r = Some (first :: rest) /\ content first = Some c /\ parts c = Some ps.

(** A part that carries no inline image. *)
Definition noImage (p : Part) : Prop := inlineData p = None.

(** A part that carries no text, or the empty text. *)
Definition noText (p : Part) : Prop := text p = None \/ text p = Some "".

(** The message of [ImageRefused], with the explanation [t]. *)
Definition refusalMessage (t : string) : string :=
  ("Gemini refused to generate an image. Reason: " ++ t)%string.

(** The message of [NoImageReturned]. *)
Definition noImageMessage : string := "No image data received from Gemini.".

(** The fallback of [Generic]. *)
Definition fallbackMessage : string := "Failed to edit image using Gemini.".

(** The data URL of a returned image. *)
Definition dataUrl (b : Blob) : string := ("data:image/png;base64," ++ data b)%string.

End Interpreter.

Import Interpreter.

Section TryBlockFacts.

Variable generateContent : GenerateContentParameters -> Outcome GenerateContentResponse.
Variable typeErrorMessage : string.
Variables base64Image mimeType prompt : string.
Variables referenceImageBase64 referenceMimeType : Nullable string.

Local Abbreviation request :=
  (Part000.request base64Image mimeType prompt referenceImageBase64 referenceMimeType).
Local Abbreviation tryBlock :=
  (Part000.tryBlock generateContent typeErrorMessage base64Image mimeType
     prompt referenceImageBase64 referenceMimeType).

(** The two files have the same [try] block. *)
Lemma tryBlock_same :
  GeminiService.tryBlock generateContent typeErrorMessage base64Image mimeType
    prompt referenceImageBase64 referenceMimeType = tryBlock.
Proof. reflexivity. Qed.

Lemma firstInlineData_first (before after : list Part) (p : Part) (blob : Blob) :
  Forall noImage before -> inlineData p = Some blob ->
  Part000.firstInlineData (before ++ p :: after) = Some blob.
Proof.
  intros Hb Hp. induction Hb as [|q before Hq _ IH]; simpl.
  - rewrite Hp. reflexivity.
  - rewrite Hq. exact IH.
Qed.

Lemma firstInlineData_none (ps : list Part) :
  Forall noImage ps -> Part000.firstInlineData ps = None.
Proof.
  induction 1 as [|q ps Hq _ IH]; simpl; [reflexivity|].
  rewrite Hq. exact IH.
Qed.

(** Some part has an image: there is a first one. *)
Lemma first_image_exists (ps : list Part) :
  Exists (fun p => inlineData p <> None) ps ->
  exists before p after blob,
    ps = before ++ p :: after /\ Forall noImage before /\ inlineData p = Some blob.
Proof.
  induction ps as [|q ps IH]; intros H.
  - inversion H.
  - destruct (inlineData q) as [blob|] eqn:Eq.
    + exists [], q, ps, blob. repeat split; auto.
    + inversion H as [? ? Hq|? ? Hps]; subst; [congruence|].
      destruct (IH Hps) as (before & p & after & blob & -> & Hb & Hp).
      exists (q :: before), p, after, blob. repeat split; auto.
Qed.

Lemma find_text_first (before after : list Part) (p : Part) (t : string) :
  Forall noText before -> text p = Some t -> t <> "" ->
  Js.find (fun q => toBoolean (text q)) (before ++ p :: after) = Some p.
Proof.
  intros Hb Hp Ht. unfold Js.find.
  induction Hb as [|q before Hq _ IH]; simpl.
  - rewrite Hp. destruct t; [congruence | reflexivity].
  - destruct Hq as [-> | ->]; exact IH.
Qed.

Lemma find_text_none (ps : list Part) :
  Forall noText ps -> Js.find (fun q => toBoolean (text q)) ps = None.
Proof.
  unfold Js.find. induction 1 as [|q ps Hq _ IH]; simpl; [reflexivity|].
  destruct Hq as [-> | ->]; exact IH.
Qed.

(** The [try] block on a response whose first candidate has parts. *)
Lemma tryBlock_image (response : GenerateContentResponse)
      (before after : list Part) (p : Part) (blob : Blob) :
  generateContent request = Return response ->
  firstCandidateParts response (before ++ p :: after) ->
  Forall noImage before -> inlineData p = Some blob ->
  tryBlock = Return (dataUrl blob).
Proof.
  intros Hg (first & rest & c & Hc & Hf & Hps) Hb Hp.
  unfold Part000.tryBlock. rewrite Hg. simpl.
  unfold Part000.findImage. rewrite Hc, Hf, Hps. simpl.
  rewrite (firstInlineData_first _ _ _ _ Hb Hp). reflexivity.
Qed.

Lemma tryBlock_refused (response : GenerateContentResponse)
      (before after : list Part) (p : Part) (t : string) :
  generateContent request = Return response ->
  firstCandidateParts response (before ++ p :: after) ->
  Forall noImage (before ++ p :: after) ->
  Forall noText before -> text p = Some t -> t <> "" ->
  tryBlock = Throw (newError (refusalMessage t)).
Proof.
  intros Hg (first & rest & c & Hc & Hf & Hps) Hn Hb Hp Ht.
  unfold Part000.tryBlock. rewrite Hg. simpl.
  unfold Part000.findImage, Part000.findTextPart. rewrite Hc, Hf, Hps. simpl.
  rewrite (firstInlineData_none _ Hn).
  rewrite (find_text_first _ _ _ _ Hb Hp Ht).
  destruct p as [i tx]. simpl in Hp. subst tx.
  destruct t; [congruence | reflexivity].
Qed.

Lemma tryBlock_no_image (response : GenerateContentResponse) (ps : list Part) :
  generateContent request = Return response ->
  firstCandidateParts response ps ->
  Forall noImage ps -> Forall noText ps ->
  tryBlock = Throw (newError noImageMessage).
Proof.
  intros Hg (first & rest & c & Hc & Hf & Hps) Hn Ht.
  unfold Part000.tryBlock. rewrite Hg. simpl.
  unfold Part000.findImage, Part000.findTextPart. rewrite Hc, Hf, Hps. simpl.
  rewrite (firstInlineData_none _ Hn), (find_text_none _ Ht). reflexivity.
Qed.

Lemma tryBlock_empty_candidates (response : GenerateContentResponse) :
  generateContent request = Return response ->
  candidates response = Some [] ->
  tryBlock = Throw (newError typeErrorMessage).
Proof.
  intros Hg Hc.
  unfold Part000.tryBlock. rewrite Hg. simpl.
  unfold Part000.findImage. rewrite Hc. reflexivity.
Qed.

End TryBlockFacts.

(** ** The [catch] blocks on an error made by [new Error] *)

Section OwnErrors.

Lemma refusal_includes_quota (t : string) :
  includes (refusalMessage t) "quota" = includes t "quota".
Proof. reflexivity. Qed.

Lemma refusal_includes_Quota_exceeded (t : string) :
  includes (refusalMessage t) "Quota exceeded" = includes t "Quota exceeded".
Proof. reflexivity. Qed.

Lemma errorMessage_newError (m : string) :
  Part000.errorMessage (newError m) = m.
Proof. destruct m; reflexivity. Qed.

(** A message with [quota] in it takes the quota branch; [new Error] has
    no details, so the message is the generic one. *)
Lemma catchBlock_newError_quota (m : string) :
  includes m "quota" = true ->
  Part000.catchBlock (newError m) = Throw (newError Part000.quotaMessage).
Proof.
  intros H. unfold Part000.catchBlock, Part000.isQuotaError.
  rewrite errorMessage_newError, H.
  rewrite orb_true_r. reflexivity.
Qed.

(** Any other non-empty message is thrown again as it is. *)
Lemma catchBlock_newError_other (m : string) :
  m <> "" ->
  includes m "quota" = false -> includes m "Quota exceeded" = false ->
  Part000.catchBlock (newError m) = Throw (newError m).
Proof.
  intros Hm Hq HQ. unfold Part000.catchBlock, Part000.isQuotaError.
  rewrite errorMessage_newError, Hq, HQ. simpl.
  destruct m; [congruence | reflexivity].
Qed.

Lemma service_catchBlock_newError (m : string) :
  m <> "" -> GeminiService.catchBlock (newError m) = Throw (newError m).
Proof. intros Hm. destruct m; [congruence | reflexivity]. Qed.

End OwnErrors.

(** ** Responses with an image, a refusal, or nothing *)

(** C4.  When the parts of the first candidate hold an inline image, both
    variants return [data:image/png;base64,<data>] for the first such part:
    the parts before it hold no image, and neither the text parts before it,
    the image parts after it nor the MIME type of the request matter. *)
Theorem first_image_wins
        (generateContent : GenerateContentParameters -> Outcome GenerateContentResponse)
        (typeErrorMessage base64Image mimeType prompt : string)
        (referenceImageBase64 referenceMimeType : Nullable string)
        (response : GenerateContentResponse) (ps : list Part) :
  generateContent (GeminiService.request base64Image mimeType prompt
                     referenceImageBase64 referenceMimeType) = Return response ->
  firstCandidateParts response ps ->
  Exists (fun p => inlineData p <> None) ps ->
  exists before p after blob,
    ps = before ++ p :: after /\
    Forall noImage before /\
    inlineData p = Some blob /\
    GeminiService.editImageWithGemini generateContent typeErrorMessage
      base64Image mimeType prompt referenceImageBase64 referenceMimeType
    = Return ("data:image/png;base64," ++ data blob)%string /\
    Part000.editImageWithGemini generateContent typeErrorMessage
      base64Image mimeType prompt referenceImageBase64 referenceMimeType
    = Return ("data:image/png;base64," ++ data blob)%string.
Proof.
  intros Hg Hps Hex.
  destruct (first_image_exists ps Hex) as (before & p & after & blob & -> & Hb & Hp).
  exists before, p, after, blob. repeat split; auto.
  - unfold GeminiService.editImageWithGemini. rewrite tryBlock_same.
    rewrite (tryBlock_image _ _ _ _ _ _ _ _ _ _ _ blob Hg Hps Hb Hp). reflexivity.
  - unfold Part000.editImageWithGemini.
    rewrite (tryBlock_image _ _ _ _ _ _ _ _ _ _ _ blob Hg Hps Hb Hp). reflexivity.
Qed.

(** The response [text, image, text] of the specification. *)
Definition textImageText : GenerateContentResponse :=
  {| candidates :=
       Some [ {| content :=
                   Some {| parts :=
                             Some [textPart "Here is your image";
                                   imagePart "iVBORw0KGgo=" "image/jpeg";
                                   textPart "Enjoy"] |} |} ] |}.

Lemma first_image_wins_witness :
  exists before p after blob,
    [textPart "Here is your image"; imagePart "iVBORw0KGgo=" "image/jpeg"; textPart "Enjoy"]
    = before ++ p :: after /\
    Forall noImage before /\
    inlineData p = Some blob /\
    GeminiService.editImageWithGemini (fun _ => Return textImageText)
      "TypeError" "aGVsbG8=" "image/jpeg" "make it red" Null Undefined
    = Return ("data:image/png;base64," ++ data blob)%string /\
    Part000.editImageWithGemini (fun _ => Return textImageText)
      "TypeError" "aGVsbG8=" "image/jpeg" "make it red" Null Undefined
    = Return ("data:image/png;base64," ++ data blob)%string.
Proof.
  apply (first_image_wins (fun _ => Return textImageText)
           "TypeError" "aGVsbG8=" "image/jpeg" "make it red" Null Undefined
           textImageText).
  - reflexivity.
  - unfold firstCandidateParts, textImageText. simpl.
    eexists _, _, _. repeat split; reflexivity.
  - apply Exists_cons_tl, Exists_cons_hd. simpl. discriminate.
Defined.

(** A response whose first candidate has the parts [ps]. *)
Definition responseOf (ps : list Part) : GenerateContentResponse :=
  {| candidates := Some [ {| content := Some {| parts := Some ps |} |} ] |}.

Lemma responseOf_parts (ps : list Part) : firstCandidateParts (responseOf ps) ps.
Proof. eexists _, _, _. repeat split; reflexivity. Qed.

(** C5, counterexample.  The only part is a text part with the empty
    text: there is no image part and there is a text part, whose content is
    [""], yet the failure is [NoImageReturned], not [ImageRefused] with
    that content. *)
Lemma empty_text_part_not_refused :
  let ps := [textPart ""] in
  Forall noImage ps /\
  (exists p, In p ps /\ text p = Some "") /\
  GeminiService.editImageWithGemini (fun _ => Return (responseOf ps))
    "TypeError" "aGVsbG8=" "image/png" "make it red" Null Undefined
  <> Throw (newError (refusalMessage "")) /\
  GeminiService.editImageWithGemini (fun _ => Return (responseOf ps))
    "TypeError" "aGVsbG8=" "image/png" "make it red" Null Undefined
  = Throw (newError noImageMessage).
Proof.
  repeat split.
  - repeat constructor.
  - exists (textPart ""). split; [left|]; reflexivity.
  - discriminate.
Qed.

(** C5, amended.  When the parts of the first candidate hold no inline
    image: if some part has a non-empty text, [t] being the first such text,
    the variant of [geminiService.ts] fails with [ImageRefused] carrying [t],
    and so does the variant of [part_000] when [t] contains neither [quota]
    nor [Quota exceeded]; if no part has a non-empty text, both variants
    fail with [NoImageReturned]. *)
Theorem no_image_failure
        (generateContent : GenerateContentParameters -> Outcome GenerateContentResponse)
        (typeErrorMessage base64Image mimeType prompt : string)
        (referenceImageBase64 referenceMimeType : Nullable string)
        (response : GenerateContentResponse) (ps : list Part) :
  generateContent (GeminiService.request base64Image mimeType prompt
                     referenceImageBase64 referenceMimeType) = Return response ->
  firstCandidateParts response ps ->
  Forall noImage ps ->
  (forall before p after t,
      ps = before ++ p :: after ->
      Forall noText before -> text p = Some t -> t <> "" ->
      GeminiService.editImageWithGemini generateContent typeErrorMessage
        base64Image mimeType prompt referenceImageBase64 referenceMimeType
      = Throw (newError (refusalMessage t)) /\
      (~ Substring "quota" t -> ~ Substring "Quota exceeded" t ->
       Part000.editImageWithGemini generateContent typeErrorMessage
         base64Image mimeType prompt referenceImageBase64 referenceMimeType
       = Throw (newError (refusalMessage t)))) /\
  (Forall noText ps ->
   GeminiService.editImageWithGemini generateContent typeErrorMessage
     base64Image mimeType prompt referenceImageBase64 referenceMimeType
   = Throw (newError noImageMessage) /\
   Part000.editImageWithGemini generateContent typeErrorMessage
     base64Image mimeType prompt referenceImageBase64 referenceMimeType
   = Throw (newError noImageMessage)).
Proof.
  intros Hg Hps Hn. split.
  - intros before p after t -> Hb Hp Ht.
    pose proof (tryBlock_refused _ typeErrorMessage _ _ _ _ _ _ _ _ _ _
                  Hg Hps Hn Hb Hp Ht) as Htry.
    split.
    + unfold GeminiService.editImageWithGemini. rewrite tryBlock_same, Htry.
      apply service_catchBlock_newError. discriminate.
    + intros Hq HQ. unfold Part000.editImageWithGemini. rewrite Htry.
      apply catchBlock_newError_other.
      * discriminate.
      * rewrite refusal_includes_quota. apply includes_false, Hq.
      * rewrite refusal_includes_Quota_exceeded. apply includes_false, HQ.
  - intros Ht.
    pose proof (tryBlock_no_image _ typeErrorMessage _ _ _ _ _ _ _
                  Hg Hps Hn Ht) as Htry.
    split.
    + unfold GeminiService.editImageWithGemini. rewrite tryBlock_same, Htry.
      reflexivity.
    + unfold Part000.editImageWithGemini. rewrite Htry. reflexivity.
Qed.

Lemma no_image_failure_witness :
  (GeminiService.editImageWithGemini
     (fun _ => Return (responseOf [textPart ""; textPart "I cannot edit faces."]))
     "TypeError" "aGVsbG8=" "image/png" "make it red" Null Undefined
   = Throw (newError (refusalMessage "I cannot edit faces.")) /\
   Part000.editImageWithGemini
     (fun _ => Return (responseOf [textPart ""; textPart "I cannot edit faces."]))
     "TypeError" "aGVsbG8=" "image/png" "make it red" Null Undefined
   = Throw (newError (refusalMessage "I cannot edit faces."))) /\
  (GeminiService.editImageWithGemini (fun _ => Return (responseOf []))
     "TypeError" "aGVsbG8=" "image/png" "make it red" Null Undefined
   = Throw (newError noImageMessage) /\
   Part000.editImageWithGemini (fun _ => Return (responseOf []))
     "TypeError" "aGVsbG8=" "image/png" "make it red" Null Undefined
   = Throw (newError noImageMessage)).
Proof.
  split.
  - destruct (no_image_failure
                (fun _ => Return (responseOf [textPart ""; textPart "I cannot edit faces."]))
                "TypeError" "aGVsbG8=" "image/png" "make it red" Null Undefined
                _ _ eq_refl (responseOf_parts _)) as [H _].
    + repeat constructor.
    + destruct (H [textPart ""] (textPart "I cannot edit faces.") [] "I cannot edit faces.")
        as [Hs Hp].
      * reflexivity.
      * constructor; [right; reflexivity | constructor].
      * reflexivity.
      * discriminate.
      * split; [exact Hs|]. apply Hp; apply includes_false; reflexivity.
  - destruct (no_image_failure (fun _ => Return (responseOf []))
                "TypeError" "aGVsbG8=" "image/png" "make it red" Null Undefined
                _ _ eq_refl (responseOf_parts _)) as [_ H].
    + constructor.
    + apply H. constructor.
Defined.

(** C8.  In [part_000] a refusal whose text contains [quota] does not reach
    the caller: the [catch] block of the same function catches the
    [ImageRefused] error, the substring check of its classifier matches the
    message, and the generic quota message is thrown in place of the
    refusal. *)
Theorem refusal_mentioning_quota_is_masked
        (generateContent : GenerateContentParameters -> Outcome GenerateContentResponse)
        (typeErrorMessage base64Image mimeType prompt : string)
        (referenceImageBase64 referenceMimeType : Nullable string)
        (response : GenerateContentResponse)
        (before after : list Part) (p : Part) (t : string) :
  generateContent (Part000.request base64Image mimeType prompt
                     referenceImageBase64 referenceMimeType) = Return response ->
  firstCandidateParts response (before ++ p :: after) ->
  Forall noImage (before ++ p :: after) ->
  Forall noText before -> text p = Some t ->
  Substring "quota" t ->
  Part000.tryBlock generateContent typeErrorMessage
    base64Image mimeType prompt referenceImageBase64 referenceMimeType
  = Throw (newError (refusalMessage t)) /\
  Part000.isQuotaError (newError (refusalMessage t)) = true /\
  Part000.editImageWithGemini generateContent typeErrorMessage
    base64Image mimeType prompt referenceImageBase64 referenceMimeType
  = Throw (newError Part000.quotaMessage) /\
  Part000.quotaMessage <> refusalMessage t /\
  Part000.quotaMessage
  = "API quota exceeded. You've reached the free tier limit. Please wait a few minutes before trying again, or upgrade your plan at https://ai.google.dev/pricing".
Proof.
  intros Hg Hps Hn Hb Hp Hq.
  assert (Ht : t <> "").
  { intros ->. destruct Hq as (b & a & E). destruct b; discriminate E. }
  apply includes_spec in Hq.
  pose proof (tryBlock_refused _ typeErrorMessage _ _ _ _ _ _ _ _ _ _
                Hg Hps Hn Hb Hp Ht) as Htry.
  repeat split.
  - exact Htry.
  - unfold Part000.isQuotaError. rewrite errorMessage_newError.
    rewrite refusal_includes_quota, Hq. rewrite orb_true_r. reflexivity.
  - unfold Part000.editImageWithGemini. rewrite Htry.
    apply catchBlock_newError_quota.
    rewrite refusal_includes_quota. exact Hq.
  - discriminate.
Qed.

Lemma refusal_mentioning_quota_is_masked_witness :
  Part000.editImageWithGemini
    (fun _ => Return (responseOf [textPart "Your quota of edits is used up."]))
    "TypeError" "aGVsbG8=" "image/png" "make it red" Null Undefined
  = Throw (newError Part000.quotaMessage).
Proof.
  apply (refusal_mentioning_quota_is_masked
           (fun _ => Return (responseOf [textPart "Your quota of edits is used up."]))
           "TypeError" "aGVsbG8=" "image/png" "make it red" Null Undefined
           _ [] [] (textPart "Your quota of edits is used up.")
           "Your quota of edits is used up." eq_refl (responseOf_parts _)).
  - repeat constructor.
  - constructor.
  - reflexivity.
  - apply includes_spec. reflexivity.
Defined.

(** C9.  When [candidates] is an empty list, line 64 raises a [TypeError]
    before any part is looked at.  With the message of that error not empty
    and free of [quota] and [Quota exceeded], as the message an engine gives
    is, both variants fail with that message and not with
    [NoImageReturned]. *)
Theorem empty_candidates_type_error
        (generateContent : GenerateContentParameters -> Outcome GenerateContentResponse)
        (typeErrorMessage base64Image mimeType prompt : string)
        (referenceImageBase64 referenceMimeType : Nullable string)
        (response : GenerateContentResponse) :
  generateContent (Part000.request base64Image mimeType prompt
                     referenceImageBase64 referenceMimeType) = Return response ->
  candidates response = Some [] ->
  typeErrorMessage <> "" ->
  typeErrorMessage <> noImageMessage ->
  ~ Substring "quota" typeErrorMessage ->
  ~ Substring "Quota exceeded" typeErrorMessage ->
  let part000 :=
    Part000.editImageWithGemini generateContent typeErrorMessage
      base64Image mimeType prompt referenceImageBase64 referenceMimeType in
  let service :=
    GeminiService.editImageWithGemini generateContent typeErrorMessage
      base64Image mimeType prompt referenceImageBase64 referenceMimeType in
  Part000.tryBlock generateContent typeErrorMessage
    base64Image mimeType prompt referenceImageBase64 referenceMimeType
  = Throw (newError typeErrorMessage) /\
  Part000.isQuotaError (newError typeErrorMessage) = false /\
  part000 = Throw (newError typeErrorMessage) /\
  part000 <> Throw (newError noImageMessage) /\
  service = Throw (newError typeErrorMessage) /\
  service <> Throw (newError noImageMessage).
Proof.
  intros Hg Hc Hne Hni Hq HQ part000 service.
  apply includes_false in Hq, HQ.
  pose proof (tryBlock_empty_candidates _ typeErrorMessage _ _ _ _ _ _ Hg Hc) as Htry.
  assert (Hp : part000 = Throw (newError typeErrorMessage)).
  { unfold part000, Part000.editImageWithGemini. rewrite Htry.
    apply catchBlock_newError_other; assumption. }
  assert (Hs : service = Throw (newError typeErrorMessage)).
  { unfold service, GeminiService.editImageWithGemini. rewrite tryBlock_same, Htry.
    apply service_catchBlock_newError; assumption. }
  repeat split.
  - exact Htry.
  - unfold Part000.isQuotaError. rewrite errorMessage_newError, Hq, HQ. reflexivity.
  - exact Hp.
  - rewrite Hp. intros E. injection E as E. exact (Hni E).
  - exact Hs.
  - rewrite Hs. intros E. injection E as E. exact (Hni E).
Qed.

Lemma empty_candidates_type_error_witness :
  Part000.editImageWithGemini (fun _ => Return {| candidates := Some [] |})
    "Cannot read properties of undefined (reading 'content')"
    "aGVsbG8=" "image/png" "make it red" Null Undefined
  = Throw (newError "Cannot read properties of undefined (reading 'content')") /\
  GeminiService.editImageWithGemini (fun _ => Return {| candidates := Some [] |})
    "Cannot read properties of undefined (reading 'content')"
    "aGVsbG8=" "image/png" "make it red" Null Undefined
  = Throw (newError "Cannot read properties of undefined (reading 'content')").
Proof.
  destruct (empty_candidates_type_error
              (fun _ => Return {| candidates := Some [] |})
              "Cannot read properties of undefined (reading 'content')"
              "aGVsbG8=" "image/png" "make it red" Null Undefined
              {| candidates := Some [] |} eq_refl eq_refl)
    as (_ & _ & Hp & _ & Hs & _).
  - discriminate.
  - discriminate.
  - apply includes_false. reflexivity.
  - apply includes_false. reflexivity.
  - split; [exact Hp | exact Hs].
Defined.

(** ** The two variants side by side *)

(** A rate-limit error of the remote service, with a retry delay. *)
Definition rateLimited : CaughtError :=
  {| error := None;
     own := {| code := Some 429%Z;
               status := Some "RESOURCE_EXHAUSTED";
               message := Some "rate limited";
               details :=
                 Some [ {| atType := Some "type.googleapis.com/google.rpc.RetryInfo";
                           retryDelay := Some "125s" |} ] |} |}.

(** ** The classifier of caught errors *)

Module Classifier.

(** The error object after unwrapping: the payload nested under [error]
    when there is one, the caught value itself otherwise. *)
Definition unwrap (e : CaughtError) : ErrorFields :=
  match error e with
  | Some nested => nested
  | None => own e
  end.

(** The code the classifier looks at: the one of the unwrapped object, or
    the caught value's own when the unwrapped object has none, or zero. *)
Definition codeOf (e : CaughtError) : option Z :=
  match code (unwrap e) with
  | Some 0%Z | None => code (own e)
  | Some z => Some z
  end.

(** The status, with the same fallback. *)
Definition statusOf (e : CaughtError) : option string :=
  match status (unwrap e) with
  | Some "" | None => status (own e)
  | Some s => Some s
  end.

(** The message, with the same fallback; empty when there is none. *)
Definition messageOf (e : CaughtError) : string :=
  match message (unwrap e) with
  | Some "" | None =>
      match message (own e) with
      | Some m => m
      | None => ""
      end
  | Some m => m
  end.

(** The detail list, with the same fallback; a list that is present is
    kept even when empty. *)
Definition detailsOf (e : CaughtError) : list ErrorDetail :=
  match details (unwrap e) with
  | Some ds => ds
  | None =>
      match details (own e) with
      | Some ds => ds
      | None => []
      end
  end.

Definition retryInfoType : string := "type.googleapis.com/google.rpc.RetryInfo".

(** The signals of a rate limit, read on the fields above. *)
Definition quotaSignal (e : CaughtError) : Prop :=
  codeOf e = Some 429%Z \/
  statusOf e = Some "RESOURCE_EXHAUSTED" \/
  Substring "quota" (messageOf e) \/
  Substring "Quota exceeded" (messageOf e).

(** The same signals read on the unwrapped object alone. *)
Definition unwrappedQuotaSignal (e : CaughtError) : Prop :=
  code (unwrap e) = Some 429%Z \/
  status (unwrap e) = Some "RESOURCE_EXHAUSTED" \/
  (exists m, message (unwrap e) = Some m /\
             (Substring "quota" m \/ Substring "Quota exceeded" m)).

(** A failure is [QuotaExceeded] when its message is one of the quota
    messages, which all begin alike. *)
Definition isQuotaExceeded (o : Outcome string) : Prop :=
  exists m, o = Throw (newError m) /\ startsWith m "API quota exceeded." = true.

(** The message of [Generic]: the message above, or the fallback when it
    is empty. *)
Definition genericMessage (e : CaughtError) : string :=
  match messageOf e with
  | "" => fallbackMessage
  | m => m
  end.

(** The message of [Generic] read on the unwrapped object alone. *)
Definition unwrappedGenericMessage (e : CaughtError) : string :=
  match message (unwrap e) with
  | Some "" | None => fallbackMessage
  | Some m => m
  end.

End Classifier.

Import Classifier.

Section CatchBlockFacts.

Lemma errorCode_codeOf (e : CaughtError) : Part000.errorCode e = codeOf e.
Proof.
  unfold Part000.errorCode, codeOf, Part000.errorObj, unwrap, Js.or.
  destruct (error e) as [n|]; [destruct (code n) as [[| |]|] | destruct (code (own e)) as [[| |]|]];
    reflexivity.
Qed.

Lemma errorStatus_statusOf (e : CaughtError) : Part000.errorStatus e = statusOf e.
Proof.
  unfold Part000.errorStatus, statusOf, Part000.errorObj, unwrap, Js.or.
  destruct (error e) as [n|]; [destruct (status n) as [[|]|] | destruct (status (own e)) as [[|]|]];
    reflexivity.
Qed.

Lemma errorMessage_messageOf (e : CaughtError) : Part000.errorMessage e = messageOf e.
Proof.
  unfold Part000.errorMessage, messageOf, Part000.errorObj, unwrap, Js.or, Js.orElse.
  destruct (error e) as [n|].
  - destruct (message n) as [[|]|]; try reflexivity;
      destruct (message (own e)) as [[|]|]; reflexivity.
  - destruct (message (own e)) as [[|]|]; reflexivity.
Qed.

Lemma errorDetails_detailsOf (e : CaughtError) : Part000.errorDetails e = detailsOf e.
Proof.
  unfold Part000.errorDetails, detailsOf, Part000.errorObj, unwrap, Js.or, Js.orElse.
  destruct (error e) as [n|].
  - destruct (details n); try reflexivity; destruct (details (own e)); reflexivity.
  - destruct (details (own e)); reflexivity.
Qed.

(** The condition of line 92 is the quota signal. *)
Lemma isQuotaError_spec (e : CaughtError) :
  Part000.isQuotaError e = true <-> quotaSignal e.
Proof.
  unfold Part000.isQuotaError, quotaSignal.
  rewrite errorCode_codeOf, errorStatus_statusOf, errorMessage_messageOf.
  rewrite !orb_true_iff, !includes_spec.
  assert (Hc : Part000.isNumber (codeOf e) 429 = true <-> codeOf e = Some 429%Z).
  { unfold Part000.isNumber. destruct (codeOf e) as [z|].
    - rewrite Z.eqb_eq. split; congruence.
    - split; discriminate. }
  assert (Hs : Part000.isString (statusOf e) "RESOURCE_EXHAUSTED" = true
               <-> statusOf e = Some "RESOURCE_EXHAUSTED").
  { unfold Part000.isString. destruct (statusOf e) as [s|].
    - rewrite String.eqb_eq. split; congruence.
    - split; discriminate. }
  rewrite Hc, Hs. tauto.
Qed.

Lemma firstRetryDelay_none (ds : list ErrorDetail) :
  (forall d, In d ds -> atType d <> Some retryInfoType) ->
  Part000.firstRetryDelay ds = None.
Proof.
  induction ds as [|d ds IH]; intros H; simpl; [reflexivity|].
  assert (Hd : Part000.isString (atType d) "type.googleapis.com/google.rpc.RetryInfo" = false).
  { unfold Part000.isString. destruct (atType d) as [s|] eqn:E; [|reflexivity].
    apply String.eqb_neq. intros ->. apply (H d); [left; reflexivity | exact E]. }
  rewrite Hd. simpl. apply IH. intros d' Hin. apply H. right. exact Hin.
Qed.

Lemma retryAfter_none (e : CaughtError) :
  (forall d, In d (detailsOf e) -> atType d <> Some retryInfoType) ->
  Part000.retryAfter e = None.
Proof.
  intros H. unfold Part000.retryAfter. rewrite errorDetails_detailsOf.
  rewrite (firstRetryDelay_none _ H).
  destruct (_ && _); reflexivity.
Qed.

(** Every message with a delay begins as the quota messages do. *)
Lemma retryMessage_quota (delay : string) :
  startsWith (Part000.retryMessage delay) "API quota exceeded." = true.
Proof.
  unfold Part000.retryMessage.
  destruct (gt _ 0); reflexivity.
Qed.

Lemma retryMessage_not_empty (delay : string) : Part000.retryMessage delay <> "".
Proof.
  intros E. pose proof (retryMessage_quota delay) as H. rewrite E in H. discriminate H.
Qed.

(** A message that begins as the quota messages do mentions [quota]. *)
Lemma quota_prefix_includes (m : string) :
  startsWith m "API quota exceeded." = true -> includes m "quota" = true.
Proof.
  intros H. apply startsWith_spec in H as [rest ->]. reflexivity.
Qed.

(** The quota branch. *)
Lemma catchBlock_quota (e : CaughtError) :
  Part000.isQuotaError e = true ->
  Part000.catchBlock e
  = Throw (newError (match Part000.retryAfter e with
                     | Some (String c d) => Part000.retryMessage (String c d)
                     | _ => Part000.quotaMessage
                     end)).
Proof.
  intros H. unfold Part000.catchBlock. rewrite H.
  destruct (Part000.retryAfter e) as [[|c d]|]; reflexivity.
Qed.

(** The last [throw]. *)
Lemma catchBlock_generic (e : CaughtError) :
  Part000.isQuotaError e = false ->
  Part000.catchBlock e = Throw (newError (genericMessage e)).
Proof.
  intros H. unfold Part000.catchBlock. rewrite H.
  unfold Part000.isQuotaError in H.
  apply orb_false_iff in H as [H _]. apply orb_false_iff in H as [_ H].
  rewrite H. unfold genericMessage.
  rewrite errorMessage_messageOf.
  destruct (messageOf e); reflexivity.
Qed.

Lemma catchBlock_quota_exceeded (e : CaughtError) :
  isQuotaExceeded (Part000.catchBlock e) <-> Part000.isQuotaError e = true.
Proof.
  split.
  - intros (m & Hm & Hp).
    destruct (Part000.isQuotaError e) eqn:E; [reflexivity|].
    rewrite (catchBlock_generic e E) in Hm. injection Hm as Hm.
    pose proof E as E'. unfold Part000.isQuotaError in E'.
    apply orb_false_iff in E' as [E' _]. apply orb_false_iff in E' as [_ E'].
    rewrite errorMessage_messageOf in E'.
    unfold genericMessage in Hm.
    destruct (messageOf e) as [|c s] eqn:Em.
    + subst m. discriminate Hp.
    + subst m. apply quota_prefix_includes in Hp. congruence.
  - intros H. rewrite (catchBlock_quota e H).
    eexists. split; [reflexivity|].
    destruct (Part000.retryAfter e) as [[|c d]|];
      [reflexivity | apply retryMessage_quota | reflexivity].
Qed.

End CatchBlockFacts.

(** An error whose payload is nested and has no code, while the caught
    value itself has code 429. *)
Definition outerCodeOnly : CaughtError :=
  {| error := Some {| code := None; status := None;
                      message := Some "boom"; details := None |};
     own := {| code := Some 429%Z; status := None;
               message := None; details := None |} |}.

(** C1, counterexample.  The unwrapped object of [outerCodeOnly] carries
    none of the three signals, and the error is classified as
    [QuotaExceeded]: the code is taken from the caught value. *)
Lemma outer_code_is_classified :
  ~ unwrappedQuotaSignal outerCodeOnly /\
  isQuotaExceeded (Part000.catchBlock outerCodeOnly) /\
  Part000.catchBlock outerCodeOnly = Throw (newError Part000.quotaMessage).
Proof.
  split; [|split].
  - intros [H|[H|(m & Hm & [H|H])]]; try discriminate H.
    + injection Hm as <-. revert H. apply includes_false. reflexivity.
    + injection Hm as <-. revert H. apply includes_false. reflexivity.
  - eexists. split; reflexivity.
  - reflexivity.
Qed.

(** C1, amended.  A caught error is classified as [QuotaExceeded] exactly
    when its code is 429, or its status is [RESOURCE_EXHAUSTED], or its
    message contains [quota] or [Quota exceeded], each field being read on
    the unwrapped object first and on the caught value when the unwrapped
    object has none (or a zero code, or an empty string).  When so classified
    with no retry-info entry among the details, the failure carries the
    generic message that asks to wait a few minutes. *)
Theorem quota_classification (e : CaughtError) :
  (isQuotaExceeded (Part000.catchBlock e) <-> quotaSignal e) /\
  (quotaSignal e ->
   (forall d, In d (detailsOf e) -> atType d <> Some retryInfoType) ->
   Part000.catchBlock e
   = Throw (newError "API quota exceeded. You've reached the free tier limit. Please wait a few minutes before trying again, or upgrade your plan at https://ai.google.dev/pricing")).
Proof.
  split.
  - rewrite catchBlock_quota_exceeded. apply isQuotaError_spec.
  - intros Hq Hd. apply isQuotaError_spec in Hq.
    rewrite (catchBlock_quota e Hq), (retryAfter_none e Hd). reflexivity.
Qed.

(** The error [{code: 429, message: "rate limited"}], with no details. *)
Definition code429 : CaughtError :=
  {| error := None;
     own := {| code := Some 429%Z; status := None;
               message := Some "rate limited"; details := None |} |}.

Lemma quota_classification_witness :
  isQuotaExceeded (Part000.catchBlock code429) /\
  Part000.catchBlock code429
  = Throw (newError "API quota exceeded. You've reached the free tier limit. Please wait a few minutes before trying again, or upgrade your plan at https://ai.google.dev/pricing").
Proof.
  assert (Hq : quotaSignal code429) by (left; reflexivity).
  split.
  - apply (proj1 (quota_classification code429)). exact Hq.
  - apply (proj2 (quota_classification code429) Hq).
    intros d [].
Defined.

(** An error whose nested payload has no message, while the caught value
    itself has one. *)
Definition outerMessageOnly : CaughtError :=
  {| error := Some {| code := Some 500%Z; status := None;
                      message := None; details := None |};
     own := {| code := None; status := None;
               message := Some "outer failure"; details := None |} |}.

(** C6, counterexample.  [outerMessageOnly] is not classified as
    [QuotaExceeded] and its unwrapped object has no message, yet the failure
    does not carry the fallback: it carries the message of the caught
    value. *)
Lemma outer_message_is_forwarded :
  ~ isQuotaExceeded (Part000.catchBlock outerMessageOnly) /\
  message (unwrap outerMessageOnly) = None /\
  unwrappedGenericMessage outerMessageOnly = fallbackMessage /\
  Part000.catchBlock outerMessageOnly
  <> Throw (newError (unwrappedGenericMessage outerMessageOnly)) /\
  Part000.catchBlock outerMessageOnly = Throw (newError "outer failure").
Proof.
  repeat split.
  - rewrite catchBlock_quota_exceeded. discriminate.
  - discriminate.
Qed.

(** C6, amended.  A caught error that is not classified as [QuotaExceeded]
    fails with the message of the unwrapped object, or with the message of
    the caught value when the unwrapped object has none or an empty one, or
    with the fixed fallback when that one is missing or empty too.  The
    message of the failure is never empty, whatever the caught error. *)
Theorem generic_failure_message (e : CaughtError) :
  (~ isQuotaExceeded (Part000.catchBlock e) ->
   Part000.catchBlock e = Throw (newError (genericMessage e))) /\
  (exists m, Part000.catchBlock e = Throw (newError m) /\ m <> "").
Proof.
  split.
  - intros H. apply catchBlock_generic.
    destruct (Part000.isQuotaError e) eqn:E; [|reflexivity].
    exfalso. apply H, catchBlock_quota_exceeded, E.
  - destruct (Part000.isQuotaError e) eqn:E.
    + rewrite (catchBlock_quota e E). eexists. split; [reflexivity|].
      destruct (Part000.retryAfter e) as [[|c d]|];
        [discriminate | apply retryMessage_not_empty | discriminate].
    + rewrite (catchBlock_generic e E). eexists. split; [reflexivity|].
      unfold genericMessage. destruct (messageOf e); discriminate.
Qed.

(** An error with no message at all. *)
Definition silentError : CaughtError :=
  {| error := None;
     own := {| code := Some 500%Z; status := Some "INTERNAL";
               message := None; details := None |} |}.

Lemma generic_failure_message_witness :
  Part000.catchBlock silentError
  = Throw (newError "Failed to edit image using Gemini.").
Proof.
  apply (proj1 (generic_failure_message silentError)).
  intros (m & Hm & Hp). vm_compute in Hm. injection Hm as <-. discriminate Hp.
Defined.

(** ** Where the two variants agree *)

Section VariantsOnResponses.

Variable generateContent : GenerateContentParameters -> Outcome GenerateContentResponse.
Variable typeErrorMessage : string.
Variables base64Image mimeType prompt : string.
Variables referenceImageBase64 referenceMimeType : Nullable string.

(** Once the remote call has returned a response, what the [try] block
    throws is an error made by [new Error] at line 76 or 79, or the
    [TypeError] of line 64. *)
Lemma tryBlock_throws_own_error (response : GenerateContentResponse) (e : CaughtError) :
  generateContent (Part000.request base64Image mimeType prompt
                     referenceImageBase64 referenceMimeType) = Return response ->
  Part000.tryBlock generateContent typeErrorMessage base64Image mimeType
    prompt referenceImageBase64 referenceMimeType = Throw e ->
  exists m, e = newError m.
Proof.
  intros Hg. unfold Part000.tryBlock. rewrite Hg. simpl.
  destruct (Part000.findImage typeErrorMessage response) as [[blob|]|e'] eqn:Ef; simpl.
  - discriminate.
  - destruct (Part000.findTextPart response) as [[i [t|]]|].
    + destruct (toBoolean t); intros [= <-]; eexists; reflexivity.
    + intros [= <-]. eexists. reflexivity.
    + intros [= <-]. eexists. reflexivity.
  - intros [= <-]. unfold Part000.findImage in Ef.
    destruct (candidates response) as [[|first rest]|]; try discriminate Ef.
    + injection Ef as <-. eexists. reflexivity.
    + destruct (content first) as [c|]; [|discriminate Ef].
      destruct (parts c); discriminate Ef.
Qed.

(** On an error of its own whose message mentions no quota, [part_000]
    throws what [geminiService.ts] throws. *)
Lemma catchBlocks_agree_on_own_error (m : string) :
  ~ Substring "quota" m -> ~ Substring "Quota exceeded" m ->
  Part000.catchBlock (newError m) = GeminiService.catchBlock (newError m).
Proof.
  intros Hq HQ. apply includes_false in Hq, HQ.
  assert (E : Part000.isQuotaError (newError m) = false).
  { unfold Part000.isQuotaError. rewrite errorMessage_newError, Hq, HQ. reflexivity. }
  rewrite (catchBlock_generic _ E). destruct m; reflexivity.
Qed.

End VariantsOnResponses.

(** C7, counterexample.  The remote call succeeds and the response holds a
    refusal that mentions a quota: the variant of [geminiService.ts] fails
    with the refusal, the variant of [part_000] with the quota message.  The
    two are not equal on this response. *)
Lemma variants_differ_on_quota_refusal :
  let response := responseOf [textPart "Your quota of edits is used up."] in
  let service :=
    GeminiService.editImageWithGemini (fun _ => Return response)
      "TypeError" "aGVsbG8=" "image/png" "make it red" Null Undefined in
  let part000 :=
    Part000.editImageWithGemini (fun _ => Return response)
      "TypeError" "aGVsbG8=" "image/png" "make it red" Null Undefined in
  service = Throw (newError (refusalMessage "Your quota of edits is used up.")) /\
  part000 = Throw (newError Part000.quotaMessage) /\
  service <> part000.
Proof.
  repeat split. discriminate.
Qed.

(** C7, amended.  The two variants build the same request and have the same
    [try] block, so one returns a URL exactly when the other returns it.
    When the remote call has returned a response and the [try] block throws,
    it throws an error of its own, and the two variants fail alike as long as
    the message of that error contains neither [quota] nor [Quota exceeded].
    When the remote call itself fails they differ: the [catch] block of
    [geminiService.ts] throws the caught error's own message, or the
    fallback, and looks at nothing else, while on a rate-limit error the one
    of [part_000] throws a quota message with the wait. *)
Theorem variants_agree_off_quota :
  (forall base64Image mimeType prompt referenceImageBase64 referenceMimeType,
      GeminiService.buildParts base64Image mimeType prompt
        referenceImageBase64 referenceMimeType
      = Part000.buildParts base64Image mimeType prompt
          referenceImageBase64 referenceMimeType /\
      GeminiService.request base64Image mimeType prompt
        referenceImageBase64 referenceMimeType
      = Part000.request base64Image mimeType prompt
          referenceImageBase64 referenceMimeType) /\
  (forall generateContent typeErrorMessage base64Image mimeType prompt
          referenceImageBase64 referenceMimeType,
      GeminiService.tryBlock generateContent typeErrorMessage base64Image mimeType
        prompt referenceImageBase64 referenceMimeType
      = Part000.tryBlock generateContent typeErrorMessage base64Image mimeType
          prompt referenceImageBase64 referenceMimeType) /\
  (forall generateContent typeErrorMessage base64Image mimeType prompt
          referenceImageBase64 referenceMimeType url,
      GeminiService.editImageWithGemini generateContent typeErrorMessage base64Image
        mimeType prompt referenceImageBase64 referenceMimeType = Return url
      <->
      Part000.editImageWithGemini generateContent typeErrorMessage base64Image
        mimeType prompt referenceImageBase64 referenceMimeType = Return url) /\
  (forall generateContent typeErrorMessage base64Image mimeType prompt
          referenceImageBase64 referenceMimeType response e,
      generateContent (GeminiService.request base64Image mimeType prompt
                         referenceImageBase64 referenceMimeType) = Return response ->
      GeminiService.tryBlock generateContent typeErrorMessage base64Image mimeType
        prompt referenceImageBase64 referenceMimeType = Throw e ->
      exists m,
        e = newError m /\
        (~ Substring "quota" m -> ~ Substring "Quota exceeded" m ->
         GeminiService.editImageWithGemini generateContent typeErrorMessage base64Image
           mimeType prompt referenceImageBase64 referenceMimeType
         = Part000.editImageWithGemini generateContent typeErrorMessage base64Image
             mimeType prompt referenceImageBase64 referenceMimeType)) /\
  (forall e : CaughtError,
      GeminiService.catchBlock e
      = Throw (newError (match message (own e) with
                         | Some (String c m) => String c m
                         | _ => fallbackMessage
                         end))) /\
  GeminiService.catchBlock rateLimited = Throw (newError "rate limited") /\
  Part000.catchBlock rateLimited
  = Throw (newError "API quota exceeded. You've reached the free tier limit. Please wait 2 minutes and 5 seconds before trying again, or upgrade your plan at https://ai.google.dev/pricing") /\
  (forall base64Image mimeType prompt referenceImageBase64 referenceMimeType,
      GeminiService.editImageWithGemini (fun _ => Throw rateLimited) ""
        base64Image mimeType prompt referenceImageBase64 referenceMimeType
      <> Part000.editImageWithGemini (fun _ => Throw rateLimited) ""
           base64Image mimeType prompt referenceImageBase64 referenceMimeType).
Proof.
  split; [|split; [|split; [|split; [|split; [|split; [|split]]]]]].
  - intros. split; reflexivity.
  - intros. reflexivity.
  - intros gc te img mime prompt ref refMime url.
    unfold GeminiService.editImageWithGemini, Part000.editImageWithGemini.
    rewrite tryBlock_same.
    destruct (Part000.tryBlock gc te img mime prompt ref refMime) as [u|e]; simpl.
    + reflexivity.
    + split; intros H.
      * unfold GeminiService.catchBlock in H. discriminate H.
      * unfold Part000.catchBlock in H.
        destruct (Part000.isQuotaError e).
        -- destruct (Part000.retryAfter e) as [d|]; [destruct (toBoolean d)|];
             discriminate H.
        -- destruct (Js.and _ _); discriminate H.
  - intros gc te img mime prompt ref refMime response e Hg Htry.
    rewrite tryBlock_same in Htry.
    destruct (tryBlock_throws_own_error gc te img mime prompt ref refMime response e
                Hg Htry) as [m ->].
    exists m. split; [reflexivity|]. intros Hq HQ.
    unfold Part000.editImageWithGemini.
    change (GeminiService.editImageWithGemini gc te img mime prompt ref refMime)
      with (tryCatch (Part000.tryBlock gc te img mime prompt ref refMime)
              GeminiService.catchBlock).
    rewrite Htry. simpl. symmetry. apply catchBlocks_agree_on_own_error; assumption.
  - intros e. unfold GeminiService.catchBlock.
    destruct (message (own e)) as [[|c m]|]; reflexivity.
  - reflexivity.
  - vm_compute. reflexivity.
  - intros. vm_compute. discriminate.
Qed.

(** A refusal that mentions no quota reaches the caller of both variants. *)
Lemma variants_agree_off_quota_witness :
  GeminiService.editImageWithGemini
    (fun _ => Return (responseOf [textPart "I cannot edit faces."]))
    "TypeError" "aGVsbG8=" "image/png" "make it red" Null Undefined
  = Part000.editImageWithGemini
      (fun _ => Return (responseOf [textPart "I cannot edit faces."]))
      "TypeError" "aGVsbG8=" "image/png" "make it red" Null Undefined.
Proof.
  destruct variants_agree_off_quota as (_ & _ & _ & H & _).
  destruct (H (fun _ => Return (responseOf [textPart "I cannot edit faces."]))
              "TypeError" "aGVsbG8=" "image/png" "make it red" Null Undefined
              (responseOf [textPart "I cannot edit faces."])
              (newError (refusalMessage "I cannot edit faces."))
              eq_refl eq_refl) as (m & E & Hagree).
  injection E as <-.
  apply Hagree; apply includes_false; reflexivity.
Defined.

(** ** The retry delay *)

Module RetryDelay.

Definition show (count : Z) : string := toString (IInt count).

(** A unit is in the plural exactly when its count is not 1. *)
Definition plural (count : Z) : string :=
  if (count =? 1)%Z then "" else "s".

(** The wait of [N] seconds as the specification phrases it: whole minutes
    [floor (N / 60)] and remaining seconds [ceil (N mod 60)]; minutes and
    seconds when there is a minute at least, the seconds left out when
    none remain; the seconds rounded up otherwise. *)
Definition specWait (N : Q) : string :=
  let minutes := Qfloor (N / 60) in
  let remaining := Qceiling (N - 60 * inject_Z minutes) in
  (if (0 <? minutes)%Z then
     show minutes ++ " minute" ++ plural minutes
     ++ (if (remaining =? 0)%Z then ""
         else " and " ++ show remaining ++ " second" ++ plural remaining)
   else
     show (Qceiling N) ++ " second" ++ plural (Qceiling N))%string.

(** A quota error whose details carry a retry-info entry with [delay]. *)
Definition quotaErrorWithDelay (delay : string) : CaughtError :=
  {| error :=
       Some {| code := Some 429%Z;
               status := Some "RESOURCE_EXHAUSTED";
               message := Some "You exceeded your current quota.";
               details :=
                 Some [ {| atType := Some "type.googleapis.com/google.rpc.Help";
                           retryDelay := None |};
                        {| atType := Some "type.googleapis.com/google.rpc.RetryInfo";
                           retryDelay := Some delay |} ] |};
     own := {| code := None; status := None;
               message := Some "got status: 429"; details := None |} |}.

End RetryDelay.

Import RetryDelay.

Section RetryDelayFacts.

Local Open Scope string_scope.

Lemma append_assoc (a b c : string) : (a ++ b) ++ c = a ++ (b ++ c).
Proof. induction a as [|x a IH]; simpl; [reflexivity | rewrite IH; reflexivity]. Qed.

Lemma append_empty_r (a : string) : a ++ "" = a.
Proof. induction a as [|x a IH]; simpl; [reflexivity | rewrite IH; reflexivity]. Qed.

(** For a count that is at least 1, [count > 1] and [count <> 1] agree. *)
Lemma plural_gt (count : Z) :
  (1 <= count)%Z -> (if (1 <? count)%Z then "s" else "") = plural count.
Proof.
  intros H. unfold plural.
  destruct (Z.ltb_spec 1 count), (Z.eqb_spec count 1); try reflexivity; lia.
Qed.

Lemma sixty_positive (q : Q) : (0 < q)%Q -> (0 <= q / inject_Z 60)%Q.
Proof.
  intros H. apply Qle_shift_div_l; [reflexivity|].
  rewrite Qmult_0_l. apply Qlt_le_weak, H.
Qed.

Lemma truncate_positive (q : Q) :
  (0 < q)%Q -> truncate (q / inject_Z 60) = Qfloor (q / inject_Z 60).
Proof.
  intros H. unfold truncate.
  destruct (Qle_bool 0 (q / inject_Z 60)) eqn:E; [reflexivity|].
  apply sixty_positive, Qle_bool_iff in H. congruence.
Qed.

Lemma minutes_not_negative (q : Q) : (0 < q)%Q -> (0 <= Qfloor (q / inject_Z 60))%Z.
Proof.
  intros H. change 0%Z with (Qfloor 0). apply Qfloor_resp_le, sixty_positive, H.
Qed.

Lemma remaining_not_negative (q : Q) :
  (0 <= Qceiling (q - inject_Z 60 * inject_Z (Qfloor (q / inject_Z 60))))%Z.
Proof.
  change 0%Z with (Qceiling 0). apply Qceiling_resp_le.
  assert (H : (inject_Z 60 * inject_Z (Qfloor (q / inject_Z 60)) <= q)%Q).
  { pose proof (Qfloor_le (q / inject_Z 60)) as Hf.
    set (f := inject_Z (Qfloor (q / inject_Z 60))) in *.
    setoid_replace q with (q / inject_Z 60 * inject_Z 60)%Q by (field; discriminate).
    rewrite Qmult_comm. apply Qmult_le_compat_r; [exact Hf | discriminate]. }
  apply Qle_minus_iff in H. exact H.
Qed.

Lemma ceiling_positive (q : Q) : (0 < q)%Q -> (1 <= Qceiling q)%Z.
Proof.
  intros H. assert (0 < Qceiling q)%Z; [|lia].
  rewrite Zlt_Qlt. eapply Qlt_le_trans; [exact H | apply Qle_ceiling].
Qed.

(** For every positive delay the message of [part_000] contains the wait
    as the specification phrases it, in the exact arithmetic of the
    embedding. *)
Lemma retryMessage_positive (delay : string) (N : Q) :
  parseFloat (removeFirst "s" delay) = Finite N -> (0 < N)%Q ->
  Substring (specWait N) (Part000.retryMessage delay).
Proof.
  intros Hp HN. unfold Part000.retryMessage, specWait. rewrite Hp.
  cbn [divide remainder Math.floor Math.ceil gt].
  rewrite (truncate_positive N HN).
  change (60%Q) with (inject_Z 60). change (inject_Z (Z.pos 60)) with (inject_Z 60).
  pose proof (minutes_not_negative N HN) as Hm.
  pose proof (remaining_not_negative N) as Hr.
  pose proof (ceiling_positive N HN) as Hc.
  set (minutes := Qfloor (N / inject_Z 60)) in *.
  set (remaining := Qceiling (N - inject_Z 60 * inject_Z minutes)) in *.
  destruct (Z.ltb_spec 0 minutes) as [Hpos|Hzero].
  - rewrite (plural_gt minutes) by lia.
    destruct (Z.ltb_spec 0 remaining) as [Hrem|Hrem];
      destruct (Z.eqb_spec remaining 0) as [E|E]; try lia.
    + rewrite (plural_gt remaining) by lia.
      exists "API quota exceeded. You've reached the free tier limit. Please wait ",
             Part000.pricing.
      unfold show. repeat rewrite append_assoc. reflexivity.
    + exists "API quota exceeded. You've reached the free tier limit. Please wait ",
             (" " ++ Part000.pricing).
      unfold show. repeat rewrite append_assoc. reflexivity.
  - rewrite (plural_gt (Qceiling N)) by lia.
    exists "API quota exceeded. Please wait ", Part000.pricing.
    unfold show. repeat rewrite append_assoc. reflexivity.
Qed.

End RetryDelayFacts.

(** The delays of the specification: [125s] and [45s]. *)
Example retry_125s :
  parseFloat (removeFirst "s" "125s") = Finite 125 /\
  Math.floor (divide (Finite 125) 60) = IInt 2 /\
  Math.ceil (remainder (Finite 125) 60) = IInt 5 /\
  specWait 125 = "2 minutes and 5 seconds" /\
  Part000.catchBlock (quotaErrorWithDelay "125s")
  = Throw (newError "API quota exceeded. You've reached the free tier limit. Please wait 2 minutes and 5 seconds before trying again, or upgrade your plan at https://ai.google.dev/pricing").
Proof. repeat split; vm_compute; reflexivity. Qed.

Example retry_45s :
  specWait 45 = "45 seconds" /\
  Part000.catchBlock (quotaErrorWithDelay "45s")
  = Throw (newError "API quota exceeded. Please wait 45 seconds before trying again, or upgrade your plan at https://ai.google.dev/pricing").
Proof. repeat split; vm_compute; reflexivity. Qed.

Example retry_52_88s :
  specWait 52.88 = "53 seconds" /\
  Part000.catchBlock (quotaErrorWithDelay "52.88s")
  = Throw (newError "API quota exceeded. Please wait 53 seconds before trying again, or upgrade your plan at https://ai.google.dev/pricing").
Proof. repeat split; vm_compute; reflexivity. Qed.

(** C2, the delay [0s].  The count of seconds is 0, which is not 1, so the
    unit is to be in the plural: [0 seconds].  The message of [part_000] has
    [0 second]: line 118 puts the [s] only when the count is greater
    than 1. *)
Theorem retry_0s_is_singular :
  parseFloat (removeFirst "s" "0s") = Finite 0 /\
  Math.floor (divide (Finite 0) 60) = IInt 0 /\
  Math.ceil (remainder (Finite 0) 60) = IInt 0 /\
  specWait 0 = "0 seconds" /\
  Part000.catchBlock (quotaErrorWithDelay "0s")
  = Throw (newError "API quota exceeded. Please wait 0 second before trying again, or upgrade your plan at https://ai.google.dev/pricing") /\
  ~ Substring (specWait 0) (Part000.retryMessage "0s").
Proof.
  repeat split; try (vm_compute; reflexivity).
  apply includes_false. vm_compute. reflexivity.
Qed.

(** * Further properties of the service *)

(** ** The shape of every result *)

Section ResultShape.

Variable generateContent : GenerateContentParameters -> Outcome GenerateContentResponse.
Variable typeErrorMessage : string.
Variables base64Image mimeType prompt : string.
Variables referenceImageBase64 referenceMimeType : Nullable string.

Local Abbreviation tryBlock :=
  (Part000.tryBlock generateContent typeErrorMessage base64Image mimeType
     prompt referenceImageBase64 referenceMimeType).

(** What the [try] block returns is a data URL made at line 68. *)
Lemma tryBlock_returns_data_url (url : string) :
  tryBlock = Return url -> exists blob, url = dataUrl blob.
Proof.
  unfold Part000.tryBlock.
  destruct (generateContent _) as [response|e]; simpl; [|discriminate].
  destruct (Part000.findImage typeErrorMessage response) as [[blob|]|e]; simpl.
  - intros [= <-]. exists blob. reflexivity.
  - destruct (Part000.findTextPart response) as [[i [t|]]|]; try discriminate.
    destruct (toBoolean t); discriminate.
  - discriminate.
Qed.

(** Whatever is caught, [part_000] throws a fresh error whose message is
    not empty. *)
Lemma catchBlock_throws_message (e : CaughtError) :
  exists m, Part000.catchBlock e = Throw (newError m) /\ m <> "".
Proof.
  destruct (Part000.isQuotaError e) eqn:E.
  - rewrite (catchBlock_quota e E). eexists. split; [reflexivity|].
    destruct (Part000.retryAfter e) as [[|c d]|];
      [discriminate | apply retryMessage_not_empty | discriminate].
  - rewrite (catchBlock_generic e E). eexists. split; [reflexivity|].
    unfold genericMessage. destruct (messageOf e); discriminate.
Qed.

Lemma service_catchBlock_throws_message (e : CaughtError) :
  exists m, GeminiService.catchBlock e = Throw (newError m) /\ m <> "".
Proof.
  unfold GeminiService.catchBlock.
  destruct (message (own e)) as [[|c m]|]; simpl;
    eexists; (split; [reflexivity | discriminate]).
Qed.

End ResultShape.

(** X1.  Whatever the remote call does, each variant either returns a URL
    [data:image/png;base64,<data>] or throws an error made by [new Error]
    with a message that is not empty: the code, the status and the details
    of a remote error never reach the caller. *)
Theorem result_is_data_url_or_message
        (generateContent : GenerateContentParameters -> Outcome GenerateContentResponse)
        (typeErrorMessage base64Image mimeType prompt : string)
        (referenceImageBase64 referenceMimeType : Nullable string) :
  let shaped (result : Outcome string) :=
    (exists blob, result = Return ("data:image/png;base64," ++ data blob)%string) \/
    (exists m, result = Throw (newError m) /\ m <> "") in
  shaped (GeminiService.editImageWithGemini generateContent typeErrorMessage
            base64Image mimeType prompt referenceImageBase64 referenceMimeType) /\
  shaped (Part000.editImageWithGemini generateContent typeErrorMessage
            base64Image mimeType prompt referenceImageBase64 referenceMimeType).
Proof.
  intros shaped. unfold shaped.
  unfold GeminiService.editImageWithGemini, Part000.editImageWithGemini.
  rewrite tryBlock_same.
  destruct (Part000.tryBlock generateContent typeErrorMessage base64Image mimeType
              prompt referenceImageBase64 referenceMimeType) as [url|e] eqn:E; simpl.
  - destruct (tryBlock_returns_data_url _ _ _ _ _ _ _ _ E) as [blob ->].
    split; left; exists blob; reflexivity.
  - split; right.
    + apply service_catchBlock_throws_message.
    + apply catchBlock_throws_message.
Qed.

(** ** Responses with missing fields, and later candidates *)

(** X2.  A response with no [candidates], or whose first candidate has no
    [content], or whose content has no [parts], makes both variants fail with
    [NoImageReturned]. *)
Theorem missing_fields_no_image
        (generateContent : GenerateContentParameters -> Outcome GenerateContentResponse)
        (typeErrorMessage base64Image mimeType prompt : string)
        (referenceImageBase64 referenceMimeType : Nullable string)
        (response : GenerateContentResponse) :
  generateContent (GeminiService.request base64Image mimeType prompt
                     referenceImageBase64 referenceMimeType) = Return response ->
  (candidates response = None \/
   exists first rest,
     candidates response = Some (first :: rest) /\
     (content first = None \/
      exists c, content first = Some c /\ parts c = None)) ->
  GeminiService.editImageWithGemini generateContent typeErrorMessage
    base64Image mimeType prompt referenceImageBase64 referenceMimeType
  = Throw (newError noImageMessage) /\
  Part000.editImageWithGemini generateContent typeErrorMessage
    base64Image mimeType prompt referenceImageBase64 referenceMimeType
  = Throw (newError noImageMessage).
Proof.
  intros Hg H.
  assert (Htry : Part000.tryBlock generateContent typeErrorMessage base64Image mimeType
                   prompt referenceImageBase64 referenceMimeType
                 = Throw (newError noImageMessage)).
  { unfold Part000.tryBlock.
    change (Part000.request base64Image mimeType prompt referenceImageBase64
              referenceMimeType)
      with (GeminiService.request base64Image mimeType prompt referenceImageBase64
              referenceMimeType).
    rewrite Hg. simpl. unfold Part000.findImage, Part000.findTextPart.
    destruct H as [Hc|(first & rest & Hc & [Hf|(c & Hf & Hp)])]; rewrite Hc; simpl.
    - reflexivity.
    - rewrite Hf. reflexivity.
    - rewrite Hf, Hp. reflexivity. }
  unfold GeminiService.editImageWithGemini, Part000.editImageWithGemini.
  rewrite tryBlock_same, Htry. split; reflexivity.
Qed.

Lemma missing_fields_no_image_witness :
  GeminiService.editImageWithGemini
    (fun _ => Return {| candidates := Some [ {| content := None |} ] |})
    "TypeError" "aGVsbG8=" "image/png" "make it red" Null Undefined
  = Throw (newError noImageMessage) /\
  Part000.editImageWithGemini
    (fun _ => Return {| candidates := Some [ {| content := None |} ] |})
    "TypeError" "aGVsbG8=" "image/png" "make it red" Null Undefined
  = Throw (newError noImageMessage).
Proof.
  apply (missing_fields_no_image
           (fun _ => Return {| candidates := Some [ {| content := None |} ] |})
           "TypeError" "aGVsbG8=" "image/png" "make it red" Null Undefined
           {| candidates := Some [ {| content := None |} ] |} eq_refl).
  right. exists {| content := None |}, []. split; [reflexivity | left; reflexivity].
Defined.

(** X3.  Only the first candidate is read: two responses with the same
    first candidate give the same result, whatever candidates follow. *)
Theorem later_candidates_ignored
        (generateContent generateContent' :
           GenerateContentParameters -> Outcome GenerateContentResponse)
        (typeErrorMessage base64Image mimeType prompt : string)
        (referenceImageBase64 referenceMimeType : Nullable string)
        (first : Candidate) (rest rest' : list Candidate) :
  generateContent (GeminiService.request base64Image mimeType prompt
                     referenceImageBase64 referenceMimeType)
  = Return {| candidates := Some (first :: rest) |} ->
  generateContent' (GeminiService.request base64Image mimeType prompt
                      referenceImageBase64 referenceMimeType)
  = Return {| candidates := Some (first :: rest') |} ->
  GeminiService.editImageWithGemini generateContent typeErrorMessage
    base64Image mimeType prompt referenceImageBase64 referenceMimeType
  = GeminiService.editImageWithGemini generateContent' typeErrorMessage
      base64Image mimeType prompt referenceImageBase64 referenceMimeType /\
  Part000.editImageWithGemini generateContent typeErrorMessage
    base64Image mimeType prompt referenceImageBase64 referenceMimeType
  = Part000.editImageWithGemini generateContent' typeErrorMessage
      base64Image mimeType prompt referenceImageBase64 referenceMimeType.
Proof.
  intros Hg Hg'.
  assert (Htry : Part000.tryBlock generateContent typeErrorMessage base64Image mimeType
                   prompt referenceImageBase64 referenceMimeType
                 = Part000.tryBlock generateContent' typeErrorMessage base64Image mimeType
                     prompt referenceImageBase64 referenceMimeType).
  { unfold Part000.tryBlock.
    change (Part000.request base64Image mimeType prompt referenceImageBase64
              referenceMimeType)
      with (GeminiService.request base64Image mimeType prompt referenceImageBase64
              referenceMimeType).
    rewrite Hg, Hg'. reflexivity. }
  unfold GeminiService.editImageWithGemini, Part000.editImageWithGemini.
  rewrite !tryBlock_same, Htry. split; reflexivity.
Qed.

Lemma later_candidates_ignored_witness :
  GeminiService.editImageWithGemini
    (fun _ => Return {| candidates :=
                          Some [ {| content := Some {| parts := Some [textPart "No."] |} |};
                                 {| content := Some {| parts := Some [imagePart "iVBORw0KGgo=" "image/png"] |} |} ] |})
    "TypeError" "aGVsbG8=" "image/png" "make it red" Null Undefined
  = GeminiService.editImageWithGemini
      (fun _ => Return {| candidates :=
                            Some [ {| content := Some {| parts := Some [textPart "No."] |} |} ] |})
      "TypeError" "aGVsbG8=" "image/png" "make it red" Null Undefined.
Proof.
  apply (later_candidates_ignored
           (fun _ => Return {| candidates :=
                                 Some [ {| content := Some {| parts := Some [textPart "No."] |} |};
                                        {| content := Some {| parts := Some [imagePart "iVBORw0KGgo=" "image/png"] |} |} ] |})
           (fun _ => Return {| candidates :=
                                 Some [ {| content := Some {| parts := Some [textPart "No."] |} |} ] |})
           "TypeError" "aGVsbG8=" "image/png" "make it red" Null Undefined
           _ _ _ eq_refl eq_refl).
Defined.

(** ** Which retry delay is used *)

Module RetryInfo.

(** The delay an entry of the details offers: the entry is a
    [RetryInfo] and its [retryDelay] is a string that is not empty. *)
Definition delayOf (d : ErrorDetail) : option string :=
  match atType d, retryDelay d with
  | Some t, Some (String c s) =>
      if String.eqb t retryInfoType then Some (String c s) else None
  | _, _ => None
  end.

End RetryInfo.

Import RetryInfo.

Lemma firstRetryDelay_skips (d : ErrorDetail) (ds : list ErrorDetail) :
  delayOf d = None -> Part000.firstRetryDelay (d :: ds) = Part000.firstRetryDelay ds.
Proof.
  unfold delayOf. simpl. unfold Part000.isString, retryInfoType.
  destruct (atType d) as [t|]; [|reflexivity].
  destruct (String.eqb t _); [|reflexivity].
  destruct (retryDelay d) as [[|c s]|]; [reflexivity | discriminate | reflexivity].
Qed.

Lemma firstRetryDelay_takes (d : ErrorDetail) (ds : list ErrorDetail) (delay : string) :
  delayOf d = Some delay -> Part000.firstRetryDelay (d :: ds) = Some delay.
Proof.
  unfold delayOf. simpl. unfold Part000.isString, retryInfoType.
  destruct (atType d) as [t|]; [|discriminate].
  destruct (retryDelay d) as [[|c s]|]; try discriminate.
  destruct (String.eqb t _); [|discriminate].
  intros [= <-]. reflexivity.
Qed.

Lemma delayOf_not_empty (d : ErrorDetail) (delay : string) :
  delayOf d = Some delay -> delay <> "".
Proof.
  unfold delayOf. destruct (atType d) as [t|]; [|discriminate].
  destruct (retryDelay d) as [[|c s]|]; try discriminate.
  destruct (String.eqb t _); [|discriminate].
  intros [= <-]. discriminate.
Qed.

(** X4.  For an error classified as [QuotaExceeded], the delay in the
    message is the one of the first entry of the details that is a
    [RetryInfo] with a non-empty [retryDelay]: entries before it that are of
    another type, or that have no delay or an empty one, are passed over, and
    the entries after it are not looked at. *)
Theorem first_retry_info_wins
        (e : CaughtError) (before after : list ErrorDetail)
        (d : ErrorDetail) (delay : string) :
  quotaSignal e ->
  detailsOf e = before ++ d :: after ->
  Forall (fun x => delayOf x = None) before ->
  delayOf d = Some delay ->
  Part000.catchBlock e = Throw (newError (Part000.retryMessage delay)).
Proof.
  intros Hq Hd Hb Hdelay. apply isQuotaError_spec in Hq.
  rewrite (catchBlock_quota e Hq).
  assert (Hr : Part000.retryAfter e = Some delay).
  { unfold Part000.retryAfter. rewrite errorDetails_detailsOf, Hd.
    replace (toBoolean (before ++ d :: after) && (0 <? length (before ++ d :: after))%nat)
      with true by (destruct before; reflexivity).
    clear Hd. induction Hb as [|x before Hx _ IH].
    - apply firstRetryDelay_takes, Hdelay.
    - simpl app. rewrite (firstRetryDelay_skips x _ Hx). exact IH. }
  rewrite Hr. pose proof (delayOf_not_empty d delay Hdelay) as Hne.
  destruct delay; [congruence | reflexivity].
Qed.

(** An error with two retry hints behind an entry that has none. *)
Definition twoRetryHints : CaughtError :=
  {| error := None;
     own := {| code := Some 429%Z; status := None; message := Some "Too many requests";
               details :=
                 Some [ {| atType := Some "type.googleapis.com/google.rpc.RetryInfo";
                           retryDelay := None |};
                        {| atType := Some "type.googleapis.com/google.rpc.RetryInfo";
                           retryDelay := Some "45s" |};
                        {| atType := Some "type.googleapis.com/google.rpc.RetryInfo";
                           retryDelay := Some "125s" |} ] |} |}.

Lemma first_retry_info_wins_witness :
  Part000.catchBlock twoRetryHints
  = Throw (newError (Part000.retryMessage "45s")).
Proof.
  apply (first_retry_info_wins twoRetryHints
           [ {| atType := Some "type.googleapis.com/google.rpc.RetryInfo";
                retryDelay := None |} ]
           [ {| atType := Some "type.googleapis.com/google.rpc.RetryInfo";
                retryDelay := Some "125s" |} ]
           {| atType := Some "type.googleapis.com/google.rpc.RetryInfo";
              retryDelay := Some "45s" |} "45s").
  - left. reflexivity.
  - reflexivity.
  - repeat constructor.
  - reflexivity.
Defined.

(** X5.  When no entry of the details is a [RetryInfo] with a non-empty
    [retryDelay] (a [RetryInfo] without delay, or with the empty delay,
    does not count), an error classified as [QuotaExceeded] fails with
    the generic message that asks to wait a few minutes. *)
Theorem no_usable_retry_info
        (e : CaughtError) :
  quotaSignal e ->
  Forall (fun x => delayOf x = None) (detailsOf e) ->
  Part000.catchBlock e = Throw (newError Part000.quotaMessage).
Proof.
  intros Hq Hd. apply isQuotaError_spec in Hq.
  rewrite (catchBlock_quota e Hq).
  assert (Hr : Part000.retryAfter e = None).
  { unfold Part000.retryAfter. rewrite errorDetails_detailsOf.
    destruct (_ && _); [|reflexivity].
    induction Hd as [|x ds Hx _ IH]; [reflexivity|].
    rewrite (firstRetryDelay_skips x _ Hx). exact IH. }
  rewrite Hr. reflexivity.
Qed.

(** A quota error whose only retry hint has an empty delay. *)
Definition emptyRetryHint : CaughtError :=
  {| error := None;
     own := {| code := None; status := Some "RESOURCE_EXHAUSTED"; message := None;
               details :=
                 Some [ {| atType := Some "type.googleapis.com/google.rpc.RetryInfo";
                           retryDelay := Some "" |} ] |} |}.

Lemma no_usable_retry_info_witness :
  Part000.catchBlock emptyRetryHint = Throw (newError Part000.quotaMessage).
Proof.
  apply (no_usable_retry_info emptyRetryHint).
  - right. left. reflexivity.
  - repeat constructor.
Defined.

(** ** Nested and direct errors *)

(** The failure depends on the caught error through the message, the
    details, and whether the code is 429 and the status
    [RESOURCE_EXHAUSTED]. *)
Lemma catchBlock_fields (e e' : CaughtError) :
  (codeOf e = Some 429%Z <-> codeOf e' = Some 429%Z) ->
  (statusOf e = Some "RESOURCE_EXHAUSTED" <-> statusOf e' = Some "RESOURCE_EXHAUSTED") ->
  messageOf e = messageOf e' -> detailsOf e = detailsOf e' ->
  Part000.catchBlock e = Part000.catchBlock e'.
Proof.
  intros Hc Hs Hm Hd.
  assert (Hq : Part000.isQuotaError e = Part000.isQuotaError e').
  { apply eq_true_iff_eq. rewrite !isQuotaError_spec. unfold quotaSignal.
    rewrite Hc, Hs, Hm. reflexivity. }
  assert (Hr : Part000.retryAfter e = Part000.retryAfter e').
  { unfold Part000.retryAfter. rewrite !errorDetails_detailsOf, Hd. reflexivity. }
  unfold Part000.catchBlock.
  rewrite Hq, Hr, !errorMessage_messageOf, Hm. reflexivity.
Qed.

(** No field at all. *)
Definition noFields : ErrorFields :=
  {| code := None; status := None; message := None; details := None |}.

(** X6.  In [part_000] a payload thrown under [error] and the same payload
    thrown directly fail alike; in [geminiService.ts] the nested payload is
    not read, and the failure carries the fallback whatever the payload says. *)
Theorem nested_payload_unwrapped (payload : ErrorFields) :
  Part000.catchBlock {| error := Some payload; own := noFields |}
  = Part000.catchBlock {| error := None; own := payload |} /\
  GeminiService.catchBlock {| error := Some payload; own := noFields |}
  = Throw (newError fallbackMessage).
Proof.
  split; [|reflexivity].
  destruct payload as [c s m d].
  apply catchBlock_fields.
  - unfold codeOf. simpl. destruct c as [[| |]|]; split; congruence.
  - unfold statusOf. simpl. destruct s as [[|]|]; split; congruence.
  - unfold messageOf. simpl. destruct m as [[|]|]; reflexivity.
  - unfold detailsOf. simpl. destruct d; reflexivity.
Qed.

(** X7.  On an error that has nothing nested under [error] and carries no
    quota signal, the two [catch] blocks throw the same message; so the two
    variants of the function agree whenever the [try] block throws such an
    error. *)
Theorem variants_agree_without_quota
        (generateContent : GenerateContentParameters -> Outcome GenerateContentResponse)
        (typeErrorMessage base64Image mimeType prompt : string)
        (referenceImageBase64 referenceMimeType : Nullable string)
        (e : CaughtError) :
  Part000.tryBlock generateContent typeErrorMessage
    base64Image mimeType prompt referenceImageBase64 referenceMimeType = Throw e ->
  error e = None ->
  ~ quotaSignal e ->
  Part000.catchBlock e = GeminiService.catchBlock e /\
  Part000.editImageWithGemini generateContent typeErrorMessage
    base64Image mimeType prompt referenceImageBase64 referenceMimeType
  = GeminiService.editImageWithGemini generateContent typeErrorMessage
      base64Image mimeType prompt referenceImageBase64 referenceMimeType.
Proof.
  intros Htry He Hq.
  assert (Hc : Part000.catchBlock e = GeminiService.catchBlock e).
  { assert (E : Part000.isQuotaError e = false).
    { destruct (Part000.isQuotaError e) eqn:E; [|reflexivity].
      exfalso. apply Hq, isQuotaError_spec, E. }
    rewrite (catchBlock_generic e E).
    unfold GeminiService.catchBlock, genericMessage, messageOf, unwrap.
    rewrite He. destruct (message (own e)) as [[|c m]|]; reflexivity. }
  split; [exact Hc|].
  unfold Part000.editImageWithGemini.
  change (GeminiService.editImageWithGemini generateContent typeErrorMessage
            base64Image mimeType prompt referenceImageBase64 referenceMimeType)
    with (tryCatch
            (Part000.tryBlock generateContent typeErrorMessage
               base64Image mimeType prompt referenceImageBase64 referenceMimeType)
            GeminiService.catchBlock).
  rewrite Htry. exact Hc.
Qed.

(** A network failure, as [fetch] reports it. *)
Definition fetchFailed : CaughtError :=
  {| error := None;
     own := {| code := None; status := None;
               message := Some "fetch failed"; details := None |} |}.

Lemma variants_agree_without_quota_witness :
  Part000.editImageWithGemini (fun _ => Throw fetchFailed)
    "TypeError" "aGVsbG8=" "image/png" "make it red" Null Undefined
  = GeminiService.editImageWithGemini (fun _ => Throw fetchFailed)
      "TypeError" "aGVsbG8=" "image/png" "make it red" Null Undefined.
Proof.
  apply (variants_agree_without_quota (fun _ => Throw fetchFailed)
           "TypeError" "aGVsbG8=" "image/png" "make it red" Null Undefined
           fetchFailed eq_refl eq_refl).
  intros [H|[H|[H|H]]]; try discriminate H;
    revert H; apply includes_false; reflexivity.
Defined.

(** ** The arithmetic of the wait *)

Section WaitArithmetic.

Lemma ceiling_unique (x : Q) (z : Z) :
  (inject_Z (z - 1) < x)%Q -> (x <= inject_Z z)%Q -> Qceiling x = z.
Proof.
  intros Hlo Hhi.
  pose proof (Qle_ceiling x) as Hc. pose proof (Qceiling_lt x) as Hl.
  assert (H1 : (z - 1 < Qceiling x)%Z).
  { rewrite Zlt_Qlt. eapply Qlt_le_trans; eassumption. }
  assert (H2 : (Qceiling x - 1 < z)%Z).
  { rewrite Zlt_Qlt. eapply Qlt_le_trans; eassumption. }
  lia.
Qed.

(** Taking whole minutes off leaves the same rounding up. *)
Lemma ceiling_minus_minutes (N : Q) (m : Z) :
  Qceiling (N - inject_Z 60 * inject_Z m) = (Qceiling N - 60 * m)%Z.
Proof.
  pose proof (Qceiling_lt N) as Hlo. pose proof (Qle_ceiling N) as Hhi.
  apply ceiling_unique.
  - replace (Qceiling N - 60 * m - 1)%Z with ((Qceiling N - 1) + - (60 * m))%Z by lia.
    rewrite inject_Z_plus, inject_Z_opp, inject_Z_mult. lra.
  - replace (Qceiling N - 60 * m)%Z with (Qceiling N + - (60 * m))%Z by lia.
    rewrite inject_Z_plus, inject_Z_opp, inject_Z_mult. lra.
Qed.


End WaitArithmetic.



Example one_minute_and_sixty_seconds :
  Part000.retryMessage "119.5s"
  = "API quota exceeded. You've reached the free tier limit. Please wait 1 minute and 60 seconds before trying again, or upgrade your plan at https://ai.google.dev/pricing".
Proof. vm_compute. reflexivity. Qed.

(** ** Delays of a whole number of seconds *)

Module WholeSeconds.

(** The value of the digits [d] read after the value [acc]. *)
Fixpoint uintValue (acc : Z) (d : Decimal.uint) : Z :=
  match d with
  | Decimal.Nil => acc
  | Decimal.D0 d => uintValue (10 * acc + 0) d
  | Decimal.D1 d => uintValue (10 * acc + 1) d
  | Decimal.D2 d => uintValue (10 * acc + 2) d
  | Decimal.D3 d => uintValue (10 * acc + 3) d
  | Decimal.D4 d => uintValue (10 * acc + 4) d
  | Decimal.D5 d => uintValue (10 * acc + 5) d
  | Decimal.D6 d => uintValue (10 * acc + 6) d
  | Decimal.D7 d => uintValue (10 * acc + 7) d
  | Decimal.D8 d => uintValue (10 * acc + 8) d
  | Decimal.D9 d => uintValue (10 * acc + 9) d
  end.

(** The wait of [z] whole seconds, as [part_000] words it: the minutes
    [z / 60] and the seconds [z mod 60] from one minute on, the seconds
    alone below; a unit takes its [s] from 2 on. *)
Definition wait (z : Z) : string :=
  (if (60 <=? z)%Z then
     show (z / 60) ++ " minute" ++ (if (120 <=? z)%Z then "s" else "") ++ " "
     ++ (if (z mod 60 =? 0)%Z then ""
         else "and " ++ show (z mod 60) ++ " second"
              ++ (if (z mod 60 =? 1)%Z then "" else "s"))
   else
     show z ++ " second" ++ (if (2 <=? z)%Z then "s" else ""))%string.

(** The opening of the message, which differs with the branch. *)
Definition opening (z : Z) : string :=
  if (60 <=? z)%Z
  then "API quota exceeded. You've reached the free tier limit. Please wait "
  else "API quota exceeded. Please wait ".

End WholeSeconds.

Import WholeSeconds.

Section WholeSecondsFacts.

Local Open Scope string_scope.

Lemma takeDigits_uint (d : Decimal.uint) (acc : Z) :
  takeDigits acc (NilEmpty.string_of_uint d)
  = (uintValue acc d, Decimal.nb_digits d, "").
Proof.
  revert acc. induction d; intros acc; simpl; try reflexivity;
    rewrite IHd; reflexivity.
Qed.

Lemma uintValue_acc (d : Decimal.uint) (acc : positive) :
  Z.pos (Pos.of_uint_acc d acc) = uintValue (Z.pos acc) d.
Proof.
  revert acc. induction d; intros acc; cbn [Pos.of_uint_acc uintValue];
    try reflexivity; rewrite IHd; f_equal; lia.
Qed.

Lemma uintValue_of_uint (d : Decimal.uint) : uintValue 0 d = Z.of_uint d.
Proof.
  unfold Z.of_uint. induction d; simpl; try reflexivity;
    try (rewrite <- uintValue_acc; reflexivity).
  exact IHd.
Qed.

Lemma removeFirst_digits (d : Decimal.uint) :
  removeFirst "s" (NilEmpty.string_of_uint d ++ "s") = NilEmpty.string_of_uint d.
Proof. induction d; simpl; try reflexivity; rewrite IHd; reflexivity. Qed.

(** The digits of a number that is not negative. *)
Lemma show_digits (z : Z) :
  (0 <= z)%Z ->
  exists d, d <> Decimal.Nil /\ show z = NilEmpty.string_of_uint d /\ Z.of_uint d = z.
Proof.
  intros Hz. pose proof (DecimalZ.of_to z) as E.
  unfold show, toString. destruct z as [|p|p]; [| |lia].
  - exists (Decimal.D0 Decimal.Nil). repeat split; discriminate.
  - simpl in *. exists (Pos.to_uint p).
    destruct (Pos.to_uint p) eqn:Ed; try discriminate E;
      (split; [discriminate | split; [reflexivity | exact E]]).
Qed.

Lemma parseFloat_digits (d : Decimal.uint) :
  d <> Decimal.Nil ->
  parseFloat (NilEmpty.string_of_uint d) = Finite (inject_Z (uintValue 0 d)).
Proof.
  intros Hd. unfold parseFloat.
  destruct d; try congruence; simpl;
    rewrite takeDigits_uint; simpl;
    unfold Qmult, inject_Z; simpl; rewrite Z.mul_1_r; reflexivity.
Qed.

End WholeSecondsFacts.

Section WholeSecondsMessage.

Local Open Scope string_scope.

Lemma whole_minutes (z : Z) :
  Math.floor (divide (Finite (inject_Z z)) 60) = IInt (z / 60).
Proof.
  cbn [divide Math.floor]. rewrite (Zdiv_Qdiv z 60). reflexivity.
Qed.

Lemma whole_remaining (z : Z) :
  (0 <= z)%Z ->
  Math.ceil (remainder (Finite (inject_Z z)) 60) = IInt (z mod 60).
Proof.
  intros Hz. cbn [remainder Math.ceil].
  assert (Htr : truncate (inject_Z z / inject_Z 60) = (z / 60)%Z).
  { unfold truncate. rewrite (Zdiv_Qdiv z 60).
    assert (H : (0 <= inject_Z z / inject_Z 60)%Q).
    { apply Qle_shift_div_l; [reflexivity|]. rewrite Qmult_0_l.
      change 0%Q with (inject_Z 0). rewrite <- Zle_Qle. exact Hz. }
    apply Qle_bool_iff in H. rewrite H. reflexivity. }
  rewrite Htr, ceiling_minus_minutes, Qceiling_Z.
  f_equal. rewrite Z.mod_eq by discriminate. reflexivity.
Qed.

Lemma whole_seconds (z : Z) : Math.ceil (Finite (inject_Z z)) = IInt z.
Proof. cbn [Math.ceil]. rewrite Qceiling_Z. reflexivity. Qed.

End WholeSecondsMessage.

(** X9.  For a delay of a whole number [z] of seconds with
    [0 <= z < 2^53], the range where the source reads, divides and prints
    the number exactly, written in decimal and followed by [s], the message
    of [part_000] is known in full: [z / 60] minutes and [z mod 60] seconds from one minute on, [z]
    seconds below.  The seconds are left out when none remain (two spaces
    then follow the minutes), and a unit takes its [s] from 2 on. *)
Theorem whole_seconds_message (z : Z) :
  (0 <= z < 2 ^ 53)%Z ->
  Part000.retryMessage (show z ++ "s")
  = (opening z ++ wait z ++ Part000.pricing)%string.
Proof.
  intros [Hz _]. destruct (show_digits z Hz) as (d & Hd & Hs & Hv).
  unfold Part000.retryMessage.
  rewrite Hs, removeFirst_digits, (parseFloat_digits d Hd), uintValue_of_uint, Hv.
  rewrite whole_minutes, (whole_remaining z Hz), whole_seconds.
  cbn [gt]. unfold opening, wait.
  assert (Hm : (0 <= z mod 60 < 60)%Z) by (apply Z.mod_pos_bound; lia).
  destruct (Z.leb_spec 60 z) as [H60|H60].
  - replace (0 <? z / 60)%Z with true
      by (symmetry; apply Z.ltb_lt; Z.div_mod_to_equations; lia).
    replace (1 <? z / 60)%Z with (120 <=? z)%Z.
    2:{ destruct (Z.leb_spec 120 z), (Z.ltb_spec 1 (z / 60)); try reflexivity;
          Z.div_mod_to_equations; lia. }
    destruct (Z.eqb_spec (z mod 60) 0) as [E0|E0].
    + rewrite E0. simpl (0 <? 0)%Z. cbv iota.
      unfold show. rewrite !append_assoc. reflexivity.
    + replace (0 <? z mod 60)%Z with true by (symmetry; apply Z.ltb_lt; lia).
      replace (1 <? z mod 60)%Z with (negb (z mod 60 =? 1)%Z).
      2:{ destruct (Z.eqb_spec (z mod 60) 1), (Z.ltb_spec 1 (z mod 60));
            try reflexivity; lia. }
      destruct (z mod 60 =? 1)%Z; unfold show; simpl negb; cbv iota;
        rewrite !append_assoc; reflexivity.
  - replace (0 <? z / 60)%Z with false
      by (symmetry; apply Z.ltb_ge; Z.div_mod_to_equations; lia).
    replace (1 <? z)%Z with (2 <=? z)%Z.
    2:{ destruct (Z.leb_spec 2 z), (Z.ltb_spec 1 z); try reflexivity; lia. }
    unfold show. rewrite !append_assoc. reflexivity.
Qed.

Lemma whole_seconds_message_witness :
  Part000.retryMessage (show 3600 ++ "s")
  = "API quota exceeded. You've reached the free tier limit. Please wait 60 minutes  before trying again, or upgrade your plan at https://ai.google.dev/pricing".
Proof.
  rewrite (whole_seconds_message 3600); [|split; [discriminate | reflexivity]].
  vm_compute. reflexivity.
Defined.

(** ** A delay that is not a number *)

(** A letter of the alphabet. *)
Definition isLetter (c : ascii) : bool :=
  let n := nat_of_ascii c in
  ((65 <=? n)%nat && (n <=? 90)%nat) || ((97 <=? n)%nat && (n <=? 122)%nat).

Lemma parseFloat_letter (c : ascii) (rest : string) :
  isLetter c = true -> c <> "I"%char -> parseFloat (String c rest) = NaN.
Proof.
  intros Hl HI.
  destruct c as [[] [] [] [] [] [] [] []]; try discriminate Hl;
    try reflexivity.
  exfalso. apply HI. reflexivity.
Qed.

(** X10.  The delay is not checked to be a number.  When it begins with a
    letter other than [s] and [I], [parseFloat] gives [NaN], every comparison
    fails, and the message asks to wait [NaN second]. *)
Theorem delay_not_a_number (c : ascii) (rest : string) :
  isLetter c = true -> c <> "s"%char -> c <> "I"%char ->
  Part000.retryMessage (String c rest)
  = "API quota exceeded. Please wait NaN second before trying again, or upgrade your plan at https://ai.google.dev/pricing".
Proof.
  intros Hl Hs HI. unfold Part000.retryMessage.
  cbn [removeFirst]. apply Ascii.eqb_neq in Hs. rewrite Hs.
  rewrite (parseFloat_letter c _ Hl HI). reflexivity.
Qed.

Lemma delay_not_a_number_witness :
  Part000.catchBlock (quotaErrorWithDelay "about a minute")
  = Throw (newError "API quota exceeded. Please wait NaN second before trying again, or upgrade your plan at https://ai.google.dev/pricing").
Proof.
  change (Part000.catchBlock (quotaErrorWithDelay "about a minute"))
    with (@Throw CaughtError string (newError (Part000.retryMessage "about a minute"))).
  rewrite (delay_not_a_number "a" "bout a minute"); [reflexivity | reflexivity | |];
    discriminate.
Defined.

(** * Properties of the callers *)

(** ** Blank prompts and data URLs *)

Module Text.

(** Every character of [s] is white space. *)
Fixpoint Blank (s : string) : Prop :=
  match s with
  | EmptyString => True
  | String c rest => isWhiteSpace c = true /\ Blank rest
  end.

(** An ASCII character other than white space occurs in [s]: such a string
    is not blank, whatever characters surround that one. *)
Fixpoint Visible (s : string) : Prop :=
  match s with
  | EmptyString => False
  | String c rest =>
      ((nat_of_ascii c < 128)%nat /\ isWhiteSpace c = false) \/ Visible rest
  end.

(** No character of [s] is a comma. *)
Fixpoint CommaFree (s : string) : Prop :=
  match s with
  | EmptyString => True
  | String c rest => c <> ","%char /\ CommaFree rest
  end.

End Text.

Import Text.

Section TextFacts.

Local Open Scope string_scope.

Lemma trimStart_blank (s : string) : trimStart s = "" <-> Blank s.
Proof.
  induction s as [|c s IH]; simpl; [tauto|].
  destruct (isWhiteSpace c).
  - rewrite IH. tauto.
  - split; [discriminate | intros [H _]; discriminate H].
Qed.

Lemma trimEnd_blank (s : string) : JsText.trimEnd s = "" <-> Blank s.
Proof.
  induction s as [|c s IH]; simpl; [tauto|].
  destruct (JsText.trimEnd s) as [|k kept].
  - destruct (isWhiteSpace c).
    + split; [intros _; split; [reflexivity | apply IH; reflexivity] | reflexivity].
    + split; [discriminate | intros [H _]; discriminate H].
  - split; [discriminate|]. intros [_ H]. apply IH in H. discriminate H.
Qed.

Lemma trimStart_not_blank (s : string) :
  ~ Blank s -> ~ Blank (trimStart s).
Proof.
  induction s as [|c s IH]; simpl; [tauto|].
  destruct (isWhiteSpace c) eqn:E.
  - intros H. apply IH. tauto.
  - simpl. rewrite E. intros _ [H _]. discriminate H.
Qed.

Lemma visible_not_blank (s : string) : Visible s -> ~ Blank s.
Proof.
  induction s as [|c s IH]; simpl; [tauto|].
  intros [[_ H]|H] [Hc Hs]; [congruence | exact (IH H Hs)].
Qed.

(** [prompt.trim()] is empty exactly when the prompt is blank. *)
Lemma trim_blank (s : string) : JsText.trim s = "" <-> Blank s.
Proof.
  unfold JsText.trim. rewrite trimEnd_blank. split.
  - intros H. apply trimStart_blank.
    destruct (trimStart s) as [|c t] eqn:E; [reflexivity|].
    exfalso. assert (Hn : ~ Blank s).
    { intros Hb. apply trimStart_blank in Hb. congruence. }
    apply (trimStart_not_blank s Hn). rewrite E. exact H.
  - intros H. apply trimStart_blank in H. rewrite H. exact I.
Qed.

Lemma split_comma_free (s : string) :
  CommaFree s -> JsText.split "," s = [s].
Proof.
  induction s as [|c s IH]; simpl; [reflexivity|].
  intros [Hc Hs]. apply Ascii.eqb_neq in Hc. rewrite Hc, (IH Hs). reflexivity.
Qed.

Lemma split_non_empty (s : string) : JsText.split "," s <> [].
Proof.
  induction s as [|c s IH]; simpl; [discriminate|].
  destruct (Ascii.eqb c ","); [discriminate|].
  destruct (JsText.split "," s); discriminate.
Qed.

(** The field after the first comma. *)
Lemma split_header (header rest : string) :
  CommaFree header ->
  JsText.split "," (header ++ "," ++ rest) = header :: JsText.split "," rest.
Proof.
  induction header as [|c h IH]; simpl; [reflexivity|].
  intros [Hc Hh]. apply Ascii.eqb_neq in Hc. rewrite Hc.
  simpl in IH. rewrite (IH Hh). reflexivity.
Qed.

End TextFacts.

(** ** [fileToBase64] *)

Lemma fileToBase64_value
      (readAsDataURL : File -> Outcome string) (file : File)
      (header payload : string) :
  readAsDataURL file = Return (header ++ "," ++ payload)%string ->
  CommaFree header -> CommaFree payload ->
  App.fileToBase64 readAsDataURL file = Return (Value payload).
Proof.
  intros Hr Hh Hp. unfold App.fileToBase64. rewrite Hr. simpl.
  change (String "," payload) with ("," ++ payload)%string.
  rewrite (split_header header payload Hh), (split_comma_free payload Hp).
  reflexivity.
Qed.

(** X11.  When the reader ends with [<header>,<payload>] and neither the
    header nor the payload has a comma, as in a base64 data URL,
    [fileToBase64] resolves with the payload, unchanged; when the result has
    no comma at all it resolves with [undefined]; when the read fails it
    rejects with the reader's event. *)
Theorem fileToBase64_payload
        (readAsDataURL : File -> Outcome string) (file : File) :
  (forall header payload,
      readAsDataURL file = Return (header ++ "," ++ payload)%string ->
      CommaFree header -> CommaFree payload ->
      App.fileToBase64 readAsDataURL file = Return (Value payload)) /\
  (forall result,
      readAsDataURL file = Return result -> CommaFree result ->
      App.fileToBase64 readAsDataURL file = Return Undefined) /\
  (forall event,
      readAsDataURL file = Throw event ->
      App.fileToBase64 readAsDataURL file = Throw event).
Proof.
  repeat split.
  - intros header payload. apply fileToBase64_value.
  - intros result Hr Hc. unfold App.fileToBase64. rewrite Hr. simpl.
    rewrite (split_comma_free result Hc). reflexivity.
  - intros event Hr. unfold App.fileToBase64. rewrite Hr. reflexivity.
Qed.

(** A small PNG picture. *)
Definition picture : File := {| type := "image/png"; size := 68 |}.

Lemma fileToBase64_payload_witness :
  App.fileToBase64 (fun _ => Return "data:image/png;base64,iVBORw0KGgo=") picture
  = Return (Value "iVBORw0KGgo=").
Proof.
  apply (proj1 (fileToBase64_payload
                  (fun _ => Return "data:image/png;base64,iVBORw0KGgo=") picture)
           "data:image/png;base64" "iVBORw0KGgo=" eq_refl).
  - simpl. repeat split; discriminate.
  - simpl. repeat split; discriminate.
Defined.

(** ** [handleGenerate] *)

Module Screen.

(** The state when a generation has ended with the image [url]. *)
Definition succeeded (url : string) (s : App.State) : App.State :=
  {| App.selectedFile := App.selectedFile s;
     App.previewUrl := App.previewUrl s;
     App.referenceFile := App.referenceFile s;
     App.referenceUrl := App.referenceUrl s;
     App.generatedImage := Some url;
     App.prompt := App.prompt s;
     App.processingState :=
       {| Types.isLoading := false; Types.error := None; Types.statusMessage := "" |} |}.

(** The state when a generation has ended with the error [msg]: the image
    generated before, if any, stays. *)
Definition failed (msg : string) (s : App.State) : App.State :=
  {| App.selectedFile := App.selectedFile s;
     App.previewUrl := App.previewUrl s;
     App.referenceFile := App.referenceFile s;
     App.referenceUrl := App.referenceUrl s;
     App.generatedImage := App.generatedImage s;
     App.prompt := App.prompt s;
     App.processingState :=
       {| Types.isLoading := false; Types.error := Some msg; Types.statusMessage := "" |} |}.

End Screen.

Section HandleGenerateFacts.

Variable readAsDataURL : File -> Outcome string.
Variable service :
  Nullable string -> string -> string -> Nullable string -> Nullable string ->
  Outcome string.

Lemma prompt_not_blank (s : App.State) :
  ~ Blank (App.prompt s) -> toBoolean (JsText.trim (App.prompt s)) = true.
Proof.
  intros H. destruct (JsText.trim (App.prompt s)) eqn:E; [|reflexivity].
  exfalso. apply H, trim_blank, E.
Qed.

(** The two ways [handleGenerate] ends once the guard of line 78 is
    passed. *)
Lemma handleGenerate_ends (s : App.State) (file : File) :
  App.selectedFile s = Some file -> ~ Blank (App.prompt s) ->
  App.handleGenerate readAsDataURL service s
  = match App.generate readAsDataURL service file s with
    | Return url => Screen.succeeded url s
    | Throw err =>
        Screen.failed
          (orElse (message (own err))
             "Something went wrong. Please try a different prompt or image.") s
    end.
Proof.
  intros Hf Hp. unfold App.handleGenerate. rewrite Hf, (prompt_not_blank s Hp).
  simpl. destruct (App.generate readAsDataURL service file s); reflexivity.
Qed.

End HandleGenerateFacts.

(** X12.  With no main image selected, or with a prompt that is empty or
    made of white space only, [handleGenerate] leaves the state as it is,
    whatever the reader and the service would do. *)
Theorem handleGenerate_guard
        (readAsDataURL : File -> Outcome string)
        (service : Nullable string -> string -> string -> Nullable string ->
                   Nullable string -> Outcome string)
        (s : App.State) :
  App.selectedFile s = None \/ Blank (App.prompt s) ->
  App.handleGenerate readAsDataURL service s = s.
Proof.
  intros [H|H]; unfold App.handleGenerate.
  - rewrite H. reflexivity.
  - destruct (App.selectedFile s); [|reflexivity].
    apply trim_blank in H. rewrite H. reflexivity.
Qed.

(** A state with a picture selected and a prompt of spaces and a tab. *)
Definition blankPrompt : App.State :=
  {| App.selectedFile := Some picture; App.previewUrl := None;
     App.referenceFile := None; App.referenceUrl := None;
     App.generatedImage := None;
     App.prompt := String " " (String (ascii_of_nat 9) (String " " EmptyString));
     App.processingState :=
       {| Types.isLoading := false; Types.error := None; Types.statusMessage := "" |} |}.

Lemma handleGenerate_guard_witness :
  App.handleGenerate (fun _ => Return "data:image/png;base64,iVBORw0KGgo=")
    (fun _ _ _ _ _ => Return "data:image/png;base64,AAAA") blankPrompt
  = blankPrompt.
Proof.
  apply (handleGenerate_guard (fun _ => Return "data:image/png;base64,iVBORw0KGgo=")
           (fun _ _ _ _ _ => Return "data:image/png;base64,AAAA") blankPrompt).
  right. simpl. repeat split; reflexivity.
Defined.

(** X13.  With a main image selected and a prompt in which an ASCII
    character other than white space occurs, [handleGenerate] passes the
    guard; it ends with [isLoading] false and an empty status, and leaves the
    files, the previews and the prompt as they were.  Either it stores a generated
    image and no error, or it stores an error message that is not empty and
    keeps the image generated before. *)
Theorem handleGenerate_outcome
        (readAsDataURL : File -> Outcome string)
        (service : Nullable string -> string -> string -> Nullable string ->
                   Nullable string -> Outcome string)
        (s : App.State) (file : File) :
  App.selectedFile s = Some file -> Visible (App.prompt s) ->
  let s' := App.handleGenerate readAsDataURL service s in
  (exists url, s' = Screen.succeeded url s) \/
  (exists msg, msg <> "" /\ s' = Screen.failed msg s).
Proof.
  intros Hf Hv s'. pose proof (visible_not_blank _ Hv) as Hp. unfold s'.
  rewrite (handleGenerate_ends readAsDataURL service s file Hf Hp).
  destruct (App.generate readAsDataURL service file s) as [url|err].
  - left. exists url. reflexivity.
  - right. eexists. split; [|reflexivity].
    destruct (message (own err)) as [[|c m]|]; discriminate.
Qed.

(** A state with a picture selected, an earlier result and a prompt. *)
Definition ready : App.State :=
  {| App.selectedFile := Some picture; App.previewUrl := None;
     App.referenceFile := None; App.referenceUrl := None;
     App.generatedImage := Some "data:image/png;base64,BBBB";
     App.prompt := "make it red";
     App.processingState :=
       {| Types.isLoading := false; Types.error := None; Types.statusMessage := "" |} |}.

Lemma handleGenerate_outcome_witness :
  (exists url,
      App.handleGenerate (fun _ => Throw fetchFailed)
        (fun _ _ _ _ _ => Return "data:image/png;base64,AAAA") ready
      = Screen.succeeded url ready) \/
  (exists msg,
      msg <> "" /\
      App.handleGenerate (fun _ => Throw fetchFailed)
        (fun _ _ _ _ _ => Return "data:image/png;base64,AAAA") ready
      = Screen.failed msg ready).
Proof.
  apply (handleGenerate_outcome (fun _ => Throw fetchFailed)
           (fun _ _ _ _ _ => Return "data:image/png;base64,AAAA") ready picture eq_refl).
  left. split; [vm_compute; lia | reflexivity].
Defined.

(** ** From the selected files to the screen *)

Lemma service_result_shape
      (generateContent : GenerateContentParameters -> Outcome GenerateContentResponse)
      (typeErrorMessage base64Image mimeType prompt : string)
      (referenceImageBase64 referenceMimeType : Nullable string) :
  let result :=
    GeminiService.editImageWithGemini generateContent typeErrorMessage
      base64Image mimeType prompt referenceImageBase64 referenceMimeType in
  (exists url, result = Return url) \/
  (exists m, m <> "" /\ result = Throw (newError m)).
Proof.
  intros result. unfold result, GeminiService.editImageWithGemini.
  destruct (GeminiService.tryBlock generateContent typeErrorMessage base64Image
              mimeType prompt referenceImageBase64 referenceMimeType) as [url|e]; simpl.
  - left. exists url. reflexivity.
  - right. destruct (service_catchBlock_throws_message e) as (m & Hm & Hne).
    exists m. split; assumption.
Qed.

(** X14.  With a prompt in which an ASCII character other than white space
    occurs, when the reads of the selected files end with base64 data URLs,
    [handleGenerate] calls the service with the payload of the main file,
    the type of that file and the prompt as typed, not trimmed, and with the
    payload and the type of the reference file when there is one ([null] and
    [undefined] otherwise).  The screen then shows what the service of
    [geminiService.ts] gave: its URL, or the message of its error, never the
    fallback message of [App.tsx]. *)
Theorem handleGenerate_shows_service_result
        (generateContent : GenerateContentParameters -> Outcome GenerateContentResponse)
        (typeErrorMessage : string)
        (readAsDataURL : File -> Outcome string)
        (service : Nullable string -> string -> string -> Nullable string ->
                   Nullable string -> Outcome string)
        (s : App.State) (file : File) (header payload : string)
        (reference referenceType : Nullable string) :
  (forall b m p r rm,
      service (Value b) m p r rm
      = GeminiService.editImageWithGemini generateContent typeErrorMessage b m p r rm) ->
  App.selectedFile s = Some file -> Visible (App.prompt s) ->
  readAsDataURL file = Return (header ++ "," ++ payload)%string ->
  CommaFree header -> CommaFree payload ->
  (App.referenceFile s = None /\ reference = Null /\ referenceType = Undefined \/
   exists ref refHeader refPayload,
     App.referenceFile s = Some ref /\
     readAsDataURL ref = Return (refHeader ++ "," ++ refPayload)%string /\
     CommaFree refHeader /\ CommaFree refPayload /\
     reference = Value refPayload /\ referenceType = Value (type ref)) ->
  let result :=
    GeminiService.editImageWithGemini generateContent typeErrorMessage
      payload (type file) (App.prompt s) reference referenceType in
  (exists url,
      result = Return url /\
      App.handleGenerate readAsDataURL service s = Screen.succeeded url s) \/
  (exists m,
      m <> "" /\ result = Throw (newError m) /\
      App.handleGenerate readAsDataURL service s = Screen.failed m s).
Proof.
  intros Hservice Hf Hv Hr Hh Hpl Href result.
  pose proof (visible_not_blank _ Hv) as Hp.
  assert (Hg : App.generate readAsDataURL service file s = result).
  { unfold App.generate.
    rewrite (fileToBase64_value readAsDataURL file header payload Hr Hh Hpl). simpl.
    destruct Href as [(Hn & -> & ->)|(ref & rh & rp & Hs & Hrr & Hrh & Hrp & -> & ->)].
    - rewrite Hn. simpl. apply Hservice.
    - rewrite Hs.
      rewrite (fileToBase64_value readAsDataURL ref rh rp Hrr Hrh Hrp). simpl.
      apply Hservice. }
  rewrite (handleGenerate_ends readAsDataURL service s file Hf Hp), Hg.
  destruct (service_result_shape generateContent typeErrorMessage payload (type file)
              (App.prompt s) reference referenceType) as [(url & E)|(m & Hne & E)];
    fold result in E; rewrite E.
  - left. exists url. split; reflexivity.
  - right. exists m. repeat split; [exact Hne|].
    destruct m; [congruence | reflexivity].
Qed.

(** A state with a picture, a reference picture and a prompt with spaces
    around it. *)
Definition withReference : App.State :=
  {| App.selectedFile := Some picture; App.previewUrl := None;
     App.referenceFile := Some {| type := "image/jpeg"; size := 1024 |};
     App.referenceUrl := None;
     App.generatedImage := None;
     App.prompt := "  wear this jacket ";
     App.processingState :=
       {| Types.isLoading := false; Types.error := None; Types.statusMessage := "" |} |}.

(** A reader that gives each file a data URL of its type. *)
Definition readerOfType (file : File) : Outcome string :=
  Return ("data:" ++ type file ++ ";base64,aGVsbG8=")%string.

(** A remote service that answers with an image when the request has three
    parts and its instruction is the prompt as typed. *)
Definition remoteExpecting (p : GenerateContentParameters) : Outcome GenerateContentResponse :=
  match parts (contents p) with
  | Some [_; _; {| text := Some "  wear this jacket " |}] => Return textImageText
  | _ => Throw fetchFailed
  end.

Lemma handleGenerate_shows_service_result_witness :
  App.handleGenerate readerOfType
    (fun b m p r rm =>
       GeminiService.editImageWithGemini remoteExpecting "TypeError"
         (Builder.valueOf b) m p r rm)
    withReference
  = Screen.succeeded "data:image/png;base64,iVBORw0KGgo=" withReference.
Proof.
  destruct (handleGenerate_shows_service_result remoteExpecting "TypeError" readerOfType
              (fun b m p r rm =>
                 GeminiService.editImageWithGemini remoteExpecting "TypeError"
                   (Builder.valueOf b) m p r rm)
              withReference picture "data:image/png;base64" "aGVsbG8="
              (Value "aGVsbG8=") (Value "image/jpeg"))
    as [(url & E & H)|(m & _ & E & _)].
  - reflexivity.
  - reflexivity.
  - right. right. left. split; [vm_compute; lia | reflexivity].
  - reflexivity.
  - simpl. repeat split; discriminate.
  - simpl. repeat split; discriminate.
  - right. exists {| type := "image/jpeg"; size := 1024 |},
                  "data:image/jpeg;base64", "aGVsbG8=".
    repeat split; try reflexivity; simpl; repeat split; discriminate.
  - vm_compute in E. injection E as <-. exact H.
  - vm_compute in E. discriminate E.
Defined.

(** ** The files the uploader lets through *)

Lemma processFile_selected (file chosen : File) :
  ImageUploader.processFile file = ImageUploader.onImageSelect chosen <->
  chosen = file /\ startsWith (type file) "image/" = true /\ (size file <= 10485760)%Z.
Proof.
  unfold ImageUploader.processFile.
  destruct (startsWith (type file) "image/"); simpl.
  - change (10 * 1024 * 1024)%Z with 10485760%Z.
    destruct (Z.ltb_spec 10485760 (size file)).
    + split; [discriminate | intros (_ & _ & H'); lia].
    + split; [intros [= <-]; auto | intros (-> & _); reflexivity].
  - split; [discriminate | intros (_ & H & _); discriminate H].
Qed.

(** X15.  Of the files dropped or chosen, the uploader hands over the first
    one only, and only when its type begins with [image/] and its size is at
    most 10485760 bytes; a file of exactly 10 MB passes.  A first file that
    is not an image is reported as such even when it is too large as well,
    and the files after the first are never looked at. *)
Theorem uploader_hands_over_first_image
        (files : option (list File)) (chosen : File) :
  (ImageUploader.handleFiles files = Some (ImageUploader.onImageSelect chosen) <->
   exists rest,
     files = Some (chosen :: rest) /\
     startsWith (type chosen) "image/" = true /\ (size chosen <= 10485760)%Z) /\
  (forall first rest,
      files = Some (first :: rest) ->
      startsWith (type first) "image/" = false ->
      ImageUploader.handleFiles files
      = Some (ImageUploader.alert "Please upload an image file")).
Proof.
  split.
  - destruct files as [[|first rest]|]; simpl.
    + split; [discriminate | intros (rest & H & _); discriminate H].
    + split.
      * intros [= H]. apply processFile_selected in H as (-> & Ht & Hs).
        exists rest. auto.
      * intros (rest' & [= -> ->] & Ht & Hs). f_equal.
        apply processFile_selected. auto.
    + split; [discriminate | intros (rest & H & _); discriminate H].
  - intros first rest -> Ht. simpl. unfold ImageUploader.processFile.
    rewrite Ht. reflexivity.
Qed.

(** A picture of exactly 10 MB, dropped with a text file. *)
Lemma uploader_hands_over_first_image_witness :
  ImageUploader.handleFiles
    (Some [ {| type := "image/webp"; size := 10485760 |};
            {| type := "text/plain"; size := 12 |} ])
  = Some (ImageUploader.onImageSelect {| type := "image/webp"; size := 10485760 |}).
Proof.
  apply (proj1 (uploader_hands_over_first_image
                  (Some [ {| type := "image/webp"; size := 10485760 |};
                          {| type := "text/plain"; size := 12 |} ])
                  {| type := "image/webp"; size := 10485760 |})).
  exists [ {| type := "text/plain"; size := 12 |} ].
  repeat split. discriminate.
Defined.

(** X16.  For a reference file that the uploader has let through, the type
    is never what makes the request builder leave the reference out: the
    reference part is sent, with the payload and the type of the file,
    exactly when the payload is not empty. *)
Theorem accepted_reference_sent_unless_empty
        (reference : File) (base64Image mimeType prompt payload : string) :
  ImageUploader.processFile reference = ImageUploader.onImageSelect reference ->
  (payload <> "" ->
   GeminiService.buildParts base64Image mimeType prompt
     (Value payload) (Value (type reference))
   = [imagePart base64Image mimeType;
      imagePart payload (type reference);
      textPart prompt]) /\
  (payload = "" ->
   GeminiService.buildParts base64Image mimeType prompt
     (Value payload) (Value (type reference))
   = [imagePart base64Image mimeType; textPart prompt]).
Proof.
  intros H. apply processFile_selected in H as (_ & Ht & _).
  assert (Hne : exists c t, type reference = String c t).
  { destruct (type reference) as [|c t]; [discriminate Ht | eauto]. }
  destruct Hne as (c & t & E).
  unfold GeminiService.buildParts. rewrite E. split.
  - intros Hp. destruct payload; [congruence | reflexivity].
  - intros ->. reflexivity.
Qed.

Lemma accepted_reference_sent_unless_empty_witness :
  GeminiService.buildParts "aGVsbG8=" "image/png" "wear this jacket"
    (Value "d29ybGQ=") (Value (type picture))
  = [imagePart "aGVsbG8=" "image/png";
     imagePart "d29ybGQ=" "image/png";
     textPart "wear this jacket"].
Proof.
  apply (proj1 (accepted_reference_sent_unless_empty picture
                  "aGVsbG8=" "image/png" "wear this jacket" "d29ybGQ=" eq_refl)).
  discriminate.
Defined.
